(** * Connection and dispatch engine of the EventSub websocket client (conn.go)

    A shallow embedding of [conn.go]: the [Client] struct, the two-level
    dispatch ([handleMessage], [handleNotification]), [Close],
    [ConnectWithContext] and [reconnect].

    - Sequential code is written in a state monad over the whole program
      state, with a panic outcome for nil dereferences and calls of nil
      funcs; a Go [error] result is an [option error].
    - Callbacks are application code: an invocation is recorded in a log,
      [Go f v] for [go f(v)] and [Call f v] for [f(v)], and not run.
    - [encoding/json] and the table [subMetadata] are parameters (classes
      [Json] and [Declarations]); the websocket transports are modelled by
      the frames the server sends on each and by a closed flag.
    - The goroutine of [ConnectWithContext] and the goroutines started by
      [reconnect] are threads of an interleaving transition system; a step
      is one access to the shared client or one blocking call, and the
      handling of a frame that was read is one step of the loop. *)

From Stdlib Require Import ZArith.
From stdpp Require Import base option list strings gmap.

Open Scope string_scope.
Open Scope list_scope.

(** ** Data *)

(** [[]byte] *)
Abbreviation bytes := (list Byte.byte).

(** [string(data)] *)
Definition string_of_bytes (data : bytes) : string := String.string_of_list_byte data.

(** Contents of a decoded struct that [conn.go] never inspects (the struct
    declarations live outside [conn.go]): field name and rendered value. *)
Definition Fields := list (string * string).

(** [MessageMetadata]; [conn.go] reads [MessageType] only. *)
Record MessageMetadata := {
  MessageID : string;
  MessageType : string;
  MessageTimestamp : string
}.

(** [MessageMetadata{}] *)
Definition zeroMetadata : MessageMetadata :=
  {| MessageID := ""; MessageType := ""; MessageTimestamp := "" |}.

Record WelcomeMessage := {
  Welcome_Metadata : MessageMetadata;
  Welcome_Payload : Fields
}.

Record KeepAliveMessage := {
  KeepAlive_Metadata : MessageMetadata;
  KeepAlive_Payload : Fields
}.

(** [PayloadSubscription]; [conn.go] reads [Type] only. *)
Record PayloadSubscription := {
  Subscription_Type : string;
  Subscription_Version : string;
  Subscription_Condition : Fields
}.

(** [NotificationMessage]: [Metadata], [Payload.Subscription] and
    [Payload.Event] (the raw event bytes). *)
Record NotificationMessage := {
  Notification_Metadata : MessageMetadata;
  Payload_Subscription : PayloadSubscription;
  Payload_Event : bytes
}.

(** [ReconnectMessage]: [ReconnectUrl] is [Payload.Session.ReconnectUrl]. *)
Record ReconnectMessage := {
  Reconnect_Metadata : MessageMetadata;
  ReconnectUrl : string;
  Reconnect_Session : Fields
}.

Record RevokeMessage := {
  Revoke_Metadata : MessageMetadata;
  Revoke_Payload : Fields
}.

(** The event struct types named by the type switch of [handleNotification]
    (one constructor per [case], in source order; [EventDropEntitlementGrant]
    is the slice case). *)
Inductive EventKind :=
| EventChannelUpdate
| EventChannelFollow
| EventChannelSubscribe
| EventChannelSubscriptionEnd
| EventChannelSubscriptionGift
| EventChannelSubscriptionMessage
| EventChannelCheer
| EventChannelRaid
| EventChannelBan
| EventChannelUnban
| EventChannelModeratorAdd
| EventChannelModeratorRemove
| EventChannelChannelPointsCustomRewardAdd
| EventChannelChannelPointsCustomRewardUpdate
| EventChannelChannelPointsCustomRewardRemove
| EventChannelChannelPointsCustomRewardRedemptionAdd
| EventChannelChannelPointsCustomRewardRedemptionUpdate
| EventChannelPollBegin
| EventChannelPollProgress
| EventChannelPollEnd
| EventChannelPredictionBegin
| EventChannelPredictionProgress
| EventChannelPredictionLock
| EventChannelPredictionEnd
| EventDropEntitlementGrant
| EventExtensionBitsTransactionCreate
| EventChannelGoalBegin
| EventChannelGoalProgress
| EventChannelGoalEnd
| EventChannelHypeTrainBegin
| EventChannelHypeTrainProgress
| EventChannelHypeTrainEnd
| EventStreamOnline
| EventStreamOffline
| EventUserAuthorizationGrant
| EventUserAuthorizationRevoke
| EventUserUpdate
| EventChannelCharityCampaignDonate
| EventChannelCharityCampaignProgress
| EventChannelCharityCampaignStart
| EventChannelCharityCampaignStop
| EventChannelShieldModeBegin
| EventChannelShieldModeEnd
| EventChannelShoutoutCreate
| EventChannelShoutoutReceive
| EventChannelModerate.

(** The Go types that [zeroPtrGen] is instantiated at. *)
Inductive GoType :=
| TWelcomeMessage
| TKeepAliveMessage
| TNotificationMessage
| TReconnectMessage
| TRevokeMessage
| TEvent (k : EventKind).

(** A value of type [any] as [conn.go] produces and inspects it: [nil], or a
    pointer to a message struct or to an event struct, shown with its
    pointee. *)
Inductive any :=
| nil_any
| PtrWelcomeMessage (m : WelcomeMessage)
| PtrKeepAliveMessage (m : KeepAliveMessage)
| PtrNotificationMessage (m : NotificationMessage)
| PtrReconnectMessage (m : ReconnectMessage)
| PtrRevokeMessage (m : RevokeMessage)
| PtrEvent (k : EventKind) (e : Fields).

(** [new(T)]: a pointer to the zero value of [T]. *)
Definition new (T : GoType) : any :=
  match T with
  | TWelcomeMessage =>
      PtrWelcomeMessage {| Welcome_Metadata := zeroMetadata; Welcome_Payload := [] |}
  | TKeepAliveMessage =>
      PtrKeepAliveMessage {| KeepAlive_Metadata := zeroMetadata; KeepAlive_Payload := [] |}
  | TNotificationMessage =>
      PtrNotificationMessage
        {| Notification_Metadata := zeroMetadata;
           Payload_Subscription :=
             {| Subscription_Type := ""; Subscription_Version := "";
                Subscription_Condition := [] |};
           Payload_Event := [] |}
  | TReconnectMessage =>
      PtrReconnectMessage
        {| Reconnect_Metadata := zeroMetadata; ReconnectUrl := ""; Reconnect_Session := [] |}
  | TRevokeMessage =>
      PtrRevokeMessage {| Revoke_Metadata := zeroMetadata; Revoke_Payload := [] |}
  | TEvent k => PtrEvent k []
  end.

(** [zeroPtrGen[T]()] *)
Definition zeroPtrGen (T : GoType) : unit -> any := fun _ => new T.

(** [messageTypeMap] *)
Definition messageTypeMap : gmap string (unit -> any) :=
  <["session_welcome" := zeroPtrGen TWelcomeMessage]>
  (<["session_keepalive" := zeroPtrGen TKeepAliveMessage]>
  (<["notification" := zeroPtrGen TNotificationMessage]>
  (<["session_reconnect" := zeroPtrGen TReconnectMessage]>
  (<["revocation" := zeroPtrGen TRevokeMessage]> ∅)))).

(** ** Errors *)

(** [websocket.StatusNormalClosure] *)
Definition StatusNormalClosure : Z := 1000.

(** An error value made by a library ([encoding/json], [nhooyr.io/websocket],
    [context]), with the answers to the questions [conn.go] asks of it:
    [errors.Is(err, context.Canceled)] and [websocket.CloseStatus(err)]
    (which is [-1] when the error wraps no [websocket.CloseError];
    [errors.As(err, &closeError)] succeeds exactly when it is not [-1]). *)
Record liberror := {
  isCanceled : bool;
  CloseStatus : Z;
  text : string
}.

(** An argument of [fmt.Errorf]: a string for [%s], a value shown by its type
    for [%T] or by its contents for [%v]. *)
Inductive ErrArg :=
| Str (s : string)
| TypeOf (v : any)
| Val (v : any).

(** Go [error] values of the package: the two package-level errors, library
    errors, [fmt.Errorf(format, args...)], and [fmt.Errorf] whose format
    wraps an error with [%w]. *)
Inductive error :=
| ErrConnClosed
| ErrNilOnWelcome
| LibError (e : liberror)
| Errorf (format : string) (args : list ErrArg)
| ErrorfW (format : string) (args : list ErrArg) (wrapped : error).

(** ** What [conn.go] takes from outside

    [encoding/json] is used through [json.Unmarshal] on a fresh zero value
    and through [MarshalJSON] of the raw event; a decoder per target type
    gives the decoded value or the library's error. *)
Class Json := {
  (** [json.Unmarshal(data, &baseMessage)], the [Metadata] field of the result *)
  unmarshal_BaseMessage : bytes -> liberror + MessageMetadata;
  unmarshal_WelcomeMessage : bytes -> liberror + WelcomeMessage;
  unmarshal_KeepAliveMessage : bytes -> liberror + KeepAliveMessage;
  unmarshal_NotificationMessage : bytes -> liberror + NotificationMessage;
  unmarshal_ReconnectMessage : bytes -> liberror + ReconnectMessage;
  unmarshal_RevokeMessage : bytes -> liberror + RevokeMessage;
  unmarshal_Event : EventKind -> bytes -> liberror + Fields;
  (** [json.Unmarshal(data, nil)] *)
  unmarshal_nil : liberror;
  (** [message.Payload.Event.MarshalJSON()] *)
  Event_MarshalJSON : bytes -> liberror + bytes
}.

(** An entry of [subMetadata]; [conn.go] reads [EventGen] only. *)
Record subscriptionMetadata := {
  EventGen : option (unit -> any)
}.

(** The table [subMetadata] is declared outside [conn.go]; it is a
    parameter of the model. *)
Class Declarations := {
  subMetadata : gmap string subscriptionMetadata
}.

(** [json.Unmarshal(data, v)] for [v] a fresh pointer made by a generator:
    the result has the dynamic type of [v]. *)
Definition json_Unmarshal `{Json} (data : bytes) (v : any) : liberror + any :=
  match v with
  | nil_any => inl unmarshal_nil
  | PtrWelcomeMessage _ => sum_map id PtrWelcomeMessage (unmarshal_WelcomeMessage data)
  | PtrKeepAliveMessage _ => sum_map id PtrKeepAliveMessage (unmarshal_KeepAliveMessage data)
  | PtrNotificationMessage _ =>
      sum_map id PtrNotificationMessage (unmarshal_NotificationMessage data)
  | PtrReconnectMessage _ => sum_map id PtrReconnectMessage (unmarshal_ReconnectMessage data)
  | PtrRevokeMessage _ => sum_map id PtrRevokeMessage (unmarshal_RevokeMessage data)
  | PtrEvent k _ => sum_map id (PtrEvent k) (unmarshal_Event k data)
  end.

(** ** The client *)

(** A Go func value held in a handler field, by identity. *)
Definition callback := nat.

(** [*websocket.Conn]: the index of a transport in the world. *)
Definition ConnId := nat.

(** [context.Context], by identity. *)
Definition Context := nat.

(** [Client].  A handler field is [None] when it is [nil].  The fields
    [onEventChannelUpdate] ... [onEventChannelModerate] are the field
    [onEvent] at the event struct type they take: [onEvent EventChannelBan]
    is [onEventChannelBan].  The channel [reconnected] is unbuffered; what
    it holds is the set of goroutines blocked on it, which is part of the
    thread states below. *)
Record Client := {
  Address : string;
  ws : option ConnId;
  connected : bool;
  ctx : option Context;
  reconnecting : bool;
  onError : option callback;
  onWelcome : option callback;
  onKeepAlive : option callback;
  onNotification : option callback;
  onReconnect : option callback;
  onRevoke : option callback;
  onRawEvent : option callback;
  onEvent : EventKind -> option callback
}.

Definition set_Address (a : string) (c : Client) : Client :=
  {| Address := a; ws := ws c; connected := connected c; ctx := ctx c;
     reconnecting := reconnecting c; onError := onError c; onWelcome := onWelcome c;
     onKeepAlive := onKeepAlive c; onNotification := onNotification c;
     onReconnect := onReconnect c; onRevoke := onRevoke c;
     onRawEvent := onRawEvent c; onEvent := onEvent c |}.

Definition set_ws (w : option ConnId) (c : Client) : Client :=
  {| Address := Address c; ws := w; connected := connected c; ctx := ctx c;
     reconnecting := reconnecting c; onError := onError c; onWelcome := onWelcome c;
     onKeepAlive := onKeepAlive c; onNotification := onNotification c;
     onReconnect := onReconnect c; onRevoke := onRevoke c;
     onRawEvent := onRawEvent c; onEvent := onEvent c |}.

Definition set_connected (b : bool) (c : Client) : Client :=
  {| Address := Address c; ws := ws c; connected := b; ctx := ctx c;
     reconnecting := reconnecting c; onError := onError c; onWelcome := onWelcome c;
     onKeepAlive := onKeepAlive c; onNotification := onNotification c;
     onReconnect := onReconnect c; onRevoke := onRevoke c;
     onRawEvent := onRawEvent c; onEvent := onEvent c |}.

Definition set_ctx (x : option Context) (c : Client) : Client :=
  {| Address := Address c; ws := ws c; connected := connected c; ctx := x;
     reconnecting := reconnecting c; onError := onError c; onWelcome := onWelcome c;
     onKeepAlive := onKeepAlive c; onNotification := onNotification c;
     onReconnect := onReconnect c; onRevoke := onRevoke c;
     onRawEvent := onRawEvent c; onEvent := onEvent c |}.

Definition set_reconnecting (b : bool) (c : Client) : Client :=
  {| Address := Address c; ws := ws c; connected := connected c; ctx := ctx c;
     reconnecting := b; onError := onError c; onWelcome := onWelcome c;
     onKeepAlive := onKeepAlive c; onNotification := onNotification c;
     onReconnect := onReconnect c; onRevoke := onRevoke c;
     onRawEvent := onRawEvent c; onEvent := onEvent c |}.

(** [twitchWebsocketUrl] *)
Definition twitchWebsocketUrl : string := "wss://eventsub.wss.twitch.tv/ws".

(** [NewClientWithUrl(url)]; [printError] is the default error sink, the
    closure that prints the error. *)
Definition printError : callback := 0.

Definition NewClientWithUrl (url : string) : Client :=
  {| Address := url; ws := None; connected := false; ctx := None;
     reconnecting := false; onError := Some printError; onWelcome := None;
     onKeepAlive := None; onNotification := None; onReconnect := None;
     onRevoke := None; onRawEvent := None; onEvent := fun _ => None |}.

(** [NewClient()] *)
Definition NewClient : Client := NewClientWithUrl twitchWebsocketUrl.

(** [OnWelcome(callback)] *)
Definition OnWelcome (f : option callback) (c : Client) : Client :=
  {| Address := Address c; ws := ws c; connected := connected c; ctx := ctx c;
     reconnecting := reconnecting c; onError := onError c; onWelcome := f;
     onKeepAlive := onKeepAlive c; onNotification := onNotification c;
     onReconnect := onReconnect c; onRevoke := onRevoke c;
     onRawEvent := onRawEvent c; onEvent := onEvent c |}.

(** ** Effects, transports and threads *)

(** The argument a callback is invoked with. *)
Inductive Arg :=
| ArgError (err : error)
| ArgWelcome (message : WelcomeMessage)
| ArgKeepAlive (message : KeepAliveMessage)
| ArgNotification (message : NotificationMessage)
| ArgReconnect (message : ReconnectMessage)
| ArgRevoke (message : RevokeMessage)
| ArgRawEvent (event : string) (metadata : MessageMetadata)
    (subscription : PayloadSubscription)
| ArgEvent (k : EventKind) (event : Fields).

(** What the client does to the application: [Go f v] starts [f(v)] as a
    goroutine and goes on ([go f(v)]), [Call f v] calls [f(v)] in place.
    Callbacks are application code; the model records the invocation and
    does not run them. *)
Inductive Effect :=
| Go (f : callback) (v : Arg)
| Call (f : callback) (v : Arg).

(** What a [Read] on a transport returns: an error, or one frame. *)
Abbreviation ReadResult := (liberror + bytes)%type.

(** A transport.  [inbox] is what the server makes successive [Read]s
    return while the transport is open; [closed] is the status code of the
    first local [Close], after which [Read] returns the close error with
    that status and no frame; [closeResult] is what [Close] returns. *)
Record Conn := {
  inbox : list ReadResult;
  closed : option Z;
  closeResult : option liberror
}.

(** The transports dialed so far, and what [websocket.Dial] does at each
    address: fail, or open a transport. *)
Record World := {
  conns : list Conn;
  network : string -> liberror + Conn
}.

(** The goroutine started by [reconnect], by the statement it is at; [new]
    is its local [ws]. *)
Inductive Handoff :=
| HRead (new : ConnId)       (* ws.Read(c.ctx) and the checks on the frame *)
| HMark (new : ConnId)       (* c.reconnecting = true *)
| HClose (new : ConnId)      (* c.ws.Close(StatusNormalClosure, ...) *)
| HSwap (new : ConnId)       (* c.ws = ws *)
| HSend (new : ConnId)       (* c.reconnected <- struct{}{} *)
| HDone.

(** The goroutine that runs [ConnectWithContext], once in the [for]. *)
Inductive Loop :=
| LStart (ctx0 : Context)    (* ConnectWithContext(ctx) entered *)
| LRead                      (* about to call c.ws.Read(ctx) *)
| LReading (w : ConnId)      (* inside Read on the transport c.ws was *)
| LRecv                      (* <-c.reconnected *)
| LReturn (err : option error).

(** The whole program state: the shared client, the transports, the two
    kinds of goroutine, whether a goroutine has panicked, and the effects
    so far (oldest first). *)
Record State := {
  client : Client;
  world : World;
  loop : Loop;
  handoffs : list Handoff;
  panicked : bool;
  log : list Effect
}.

Definition with_client (c : Client) (s : State) : State :=
  {| client := c; world := world s; loop := loop s; handoffs := handoffs s;
     panicked := panicked s; log := log s |}.

Definition with_world (w : World) (s : State) : State :=
  {| client := client s; world := w; loop := loop s; handoffs := handoffs s;
     panicked := panicked s; log := log s |}.

Definition with_loop (l : Loop) (s : State) : State :=
  {| client := client s; world := world s; loop := l; handoffs := handoffs s;
     panicked := panicked s; log := log s |}.

Definition with_handoffs (hs : list Handoff) (s : State) : State :=
  {| client := client s; world := world s; loop := loop s; handoffs := hs;
     panicked := panicked s; log := log s |}.

Definition with_panicked (b : bool) (s : State) : State :=
  {| client := client s; world := world s; loop := loop s; handoffs := handoffs s;
     panicked := b; log := log s |}.

Definition with_log (l : list Effect) (s : State) : State :=
  {| client := client s; world := world s; loop := loop s; handoffs := handoffs s;
     panicked := panicked s; log := l |}.

(** ** Sequential code: a state monad with panics *)

Inductive Result (A : Type) :=
| Ok (a : A) (s : State)
| Panic (s : State).

Arguments Ok {A} a s.
Arguments Panic {A} s.

Definition M (A : Type) : Type := State -> Result A.

Definition ret {A} (a : A) : M A := fun s => Ok a s.

Definition bind {A B} (m : M A) (k : A -> M B) : M B :=
  fun s => match m s with
           | Ok a s' => k a s'
           | Panic s' => Panic s'
           end.

#[global] Instance M_ret : MRet M := @ret.
#[global] Instance M_bind : MBind M := fun A B k m => bind m k.

(** The state a computation ends in, and what it returns. *)
Definition state_of {A} (r : Result A) : State :=
  match r with Ok _ s => s | Panic s => s end.

Definition value_of {A} (r : Result A) : option A :=
  match r with Ok a _ => Some a | Panic _ => None end.

(** Reading and writing the receiver [c]. *)
Definition self : M Client := fun s => Ok (client s) s.

Definition update (f : Client -> Client) : M unit :=
  fun s => Ok tt (with_client (f (client s)) s).

Definition emit (e : Effect) : M unit :=
  fun s => Ok tt (with_log (log s ++ [e]) s).

(** A nil dereference or a call of a nil func. *)
Definition panic {A} : M A := fun s => Panic s.

(** [callFunc(f, v)] *)
Definition callFunc (f : option callback) (v : Arg) : M unit :=
  match f with
  | Some g => emit (Go g v)
  | None => ret tt
  end.

(** [f(v)] for a func field [f]: calling [nil] panics. *)
Definition call (f : option callback) (v : Arg) : M unit :=
  match f with
  | Some g => emit (Call g v)
  | None => panic
  end.

(** [ws.Close(code, reason)] on the transport [w]: the first close records
    the status code.  A [nil] receiver panics (an index outside the world
    does not arise: indices are made by [dial] only). *)
Definition close_conn (code : Z) (cn : Conn) : Conn :=
  {| inbox := inbox cn;
     closed := match closed cn with Some k => Some k | None => Some code end;
     closeResult := closeResult cn |}.

Definition ws_Close (w : option ConnId) (code : Z) : M (option liberror) :=
  fun s =>
    match w with
    | None => Panic s
    | Some i =>
        match conns (world s) !! i with
        | None => Panic s
        | Some cn =>
            Ok (closeResult cn)
               (with_world {| conns := <[i := close_conn code cn]> (conns (world s));
                              network := network (world s) |} s)
        end
    end.

(** [c.dial()] *)
Definition dial : M (error + ConnId) :=
  fun s =>
    let c := client s in
    match network (world s) (Address c) with
    | inl err =>
        Ok (inl (ErrorfW "could not dial %s: %w" [Str (Address c)] (LibError err))) s
    | inr cn =>
        Ok (inr (length (conns (world s))))
           (with_world {| conns := conns (world s) ++ [cn];
                          network := network (world s) |} s)
    end.

(** [parseBaseMessage(data)]: both results, as Go returns them. *)
Definition parseBaseMessage `{Json} (data : bytes) : MessageMetadata * option error :=
  match unmarshal_BaseMessage data with
  | inl err =>
      (zeroMetadata,
       Some (ErrorfW "could not unmarshal basemessage to get message type: %w" []
                     (LibError err)))
  | inr metadata => (metadata, None)
  end.

(** [go func() { ... }()] in [reconnect] *)
Definition spawn (h : Handoff) : M unit :=
  fun s => Ok tt (with_handoffs (handoffs s ++ [h]) s).

(** [c.reconnect(message)] *)
Definition reconnect (message : ReconnectMessage) : M (option error) :=
  update (set_Address (ReconnectUrl message)) ;;
  r ← dial;
  match r with
  | inl _ => ret (Some (Errorf "could not dial to reconnect" []))
  | inr ws => spawn (HRead ws) ;; ret None
  end.

(** [c.handleNotification(message)] *)
Definition handleNotification `{Json} `{Declarations}
    (message : NotificationMessage) : M (option error) :=
  match Event_MarshalJSON (Payload_Event message) with
  | inl err => ret (Some (ErrorfW "could not get event json: %w" [] (LibError err)))
  | inr data =>
      let subscription := Payload_Subscription message in
      match subMetadata !! Subscription_Type subscription with
      | None =>
          ret (Some (Errorf "unknown subscription type %s"
                            [Str (Subscription_Type subscription)]))
      | Some metadata =>
          c ← self;
          match onRawEvent c with
          | Some f =>
              emit (Call f (ArgRawEvent (string_of_bytes data)
                                        (Notification_Metadata message) subscription))
          | None => ret tt
          end ;;
          match
            match EventGen metadata with
            | Some gen => (gen tt, json_Unmarshal data (gen tt))
            | None => (nil_any, inr nil_any)
            end
          with
          | (target, inl err) =>
              ret (Some (ErrorfW "could not unmarshal %s into %T: %w"
                                 [Str (Subscription_Type subscription); TypeOf target]
                                 (LibError err)))
          | (_, inr newEvent) =>
              c ← self;
              match newEvent with
              | PtrEvent k event => callFunc (onEvent c k) (ArgEvent k event)
              | _ =>
                  call (onError c)
                       (ArgError (Errorf "unknown event type %s"
                                         [Str (Subscription_Type subscription)]))
              end ;;
              ret None
          end
      end
  end.

(** [c.handleMessage(data)] *)
Definition handleMessage `{Json} `{Declarations} (data : bytes) : M (option error) :=
  match parseBaseMessage data with
  | (_, Some err) => ret (Some err)
  | (metadata, None) =>
      let messageType := MessageType metadata in
      match messageTypeMap !! messageType with
      | None =>
          ret (Some (Errorf "unknown message type %s: %s"
                            [Str messageType; Str (string_of_bytes data)]))
      | Some genMessage =>
          match json_Unmarshal data (genMessage tt) with
          | inl err =>
              ret (Some (ErrorfW "could not unmarshal message into %s: %w"
                                 [Str messageType] (LibError err)))
          | inr message =>
              c ← self;
              match message with
              | PtrWelcomeMessage msg =>
                  callFunc (onWelcome c) (ArgWelcome msg) ;; ret None
              | PtrKeepAliveMessage msg =>
                  callFunc (onKeepAlive c) (ArgKeepAlive msg) ;; ret None
              | PtrNotificationMessage msg =>
                  callFunc (onNotification c) (ArgNotification msg) ;;
                  err ← handleNotification msg;
                  match err with
                  | Some e => ret (Some (ErrorfW "could not handle notification: %w" [] e))
                  | None => ret None
                  end
              | PtrReconnectMessage msg =>
                  callFunc (onReconnect c) (ArgReconnect msg) ;;
                  err ← reconnect msg;
                  match err with
                  | Some e => ret (Some (ErrorfW "could not handle reconnect: %w" [] e))
                  | None => ret None
                  end
              | PtrRevokeMessage msg =>
                  callFunc (onRevoke c) (ArgRevoke msg) ;; ret None
              | msg => ret (Some (Errorf "unhandled %T message: %v" [TypeOf msg; Val msg]))
              end
          end
      end
  end.

(** [c.Close()]; the deferred [c.ws = nil] runs on every way out, a panic
    included. *)
Definition Close : M (option error) :=
  fun s =>
    let deferred (r : Result (option error)) : Result (option error) :=
      match r with
      | Ok a s' => Ok a (with_client (set_ws None (client s')) s')
      | Panic s' => Panic (with_client (set_ws None (client s')) s')
      end in
    deferred
      ((c ← self;
        if negb (connected c) then ret None
        else
          update (set_connected false) ;;
          c ← self;
          err ← ws_Close (ws c) StatusNormalClosure;
          match err with
          | Some e =>
              if negb (CloseStatus e =? -1)%Z then ret None
              else ret (Some (ErrorfW "could not close websocket connection: %w" []
                                      (LibError e)))
          | None => ret None
          end) s).

(** ** The goroutines *)

(** The error a [Read] returns on a transport closed locally with status
    [code]. *)
Definition closedError (code : Z) : liberror :=
  {| isCanceled := false; CloseStatus := code; text := "sent close frame" |}.

Definition pop_inbox (cn : Conn) : Conn :=
  {| inbox := tail (inbox cn); closed := closed cn; closeResult := closeResult cn |}.

(** [ws.Read(ctx)] on the transport [w]: [None] while it blocks. *)
Definition ws_Read (w : ConnId) (s : State) : option (ReadResult * State) :=
  match conns (world s) !! w with
  | None => None
  | Some cn =>
      match closed cn with
      | Some code => Some (inl (closedError code), s)
      | None =>
          match inbox cn with
          | [] => None
          | r :: _ =>
              Some (r, with_world {| conns := <[w := pop_inbox cn]> (conns (world s));
                                     network := network (world s) |} s)
          end
      end
  end.

(** [context.Background()] *)
Definition Background : Context := 0.

(** [c.Connect()] is [c.ConnectWithContext(context.Background())]: the
    goroutine that calls it starts here. *)
Definition Connect : Loop := LStart Background.

(** [ConnectWithContext(ctx)] up to the [for]: [Some err] when it returns
    [err] there, [None] when it enters the loop. *)
Definition ConnectWithContext_prologue (ctx0 : Context) : M (option error) :=
  c ← self;
  match onWelcome c with
  | None => ret (Some ErrNilOnWelcome)
  | Some _ =>
      update (set_ctx (Some ctx0)) ;;
      r ← dial;
      match r with
      | inl err => ret (Some err)
      | inr ws =>
          update (set_ws (Some ws)) ;;
          update (set_connected true) ;;
          ret None
      end
  end.

(** One turn of the [for] after a frame was read: [handleMessage] and the
    report of its error. *)
Definition dispatch `{Json} `{Declarations} (data : bytes) : M unit :=
  err ← handleMessage data;
  match err with
  | Some e => c ← self; call (onError c) (ArgError e)
  | None => ret tt
  end.

(** What the [for] does with the error of a failed [Read]. *)
Definition on_read_error (err : liberror) (s : State) : State :=
  if isCanceled err then with_loop (LReturn None) s
  else if (CloseStatus err =? StatusNormalClosure)%Z then
    if reconnecting (client s) then
      with_loop LRecv (with_client (set_reconnecting false (client s)) s)
    else with_loop (LReturn None) s
  else
    with_loop (LReturn (Some (ErrorfW "could not read message: %w" [] (LibError err)))) s.

Definition crash {A} (r : Result A) (k : A -> State -> State) : State :=
  match r with
  | Ok a s => k a s
  | Panic s => with_panicked true s
  end.

(** A step of the goroutine running [ConnectWithContext]. *)
Definition loop_step `{Json} `{Declarations} (s : State) : option State :=
  match loop s with
  | LStart ctx0 =>
      Some (crash (ConnectWithContext_prologue ctx0 s)
                  (fun err s' =>
                     match err with
                     | Some e => with_loop (LReturn (Some e)) s'
                     | None => with_loop LRead s'
                     end))
  | LRead =>
      match ws (client s) with
      | None => Some (with_panicked true s)
      | Some w => Some (with_loop (LReading w) s)
      end
  | LReading w =>
      match ws_Read w s with
      | None => None
      | Some (inl err, s1) => Some (on_read_error err s1)
      | Some (inr data, s1) =>
          Some (crash (dispatch data s1) (fun _ s2 => with_loop LRead s2))
      end
  | LRecv => None
  | LReturn _ => None
  end.

(** The goroutine of [reconnect] from the result of its [Read] up to the
    check of the message type: [true] when it goes on to the swap. *)
Definition await_welcome `{Json} (r : ReadResult) : M bool :=
  let data := match r with inl _ => [] | inr d => d end in
  match r with
  | inl err =>
      c ← self;
      call (onError c)
           (ArgError (ErrorfW
              "reconnect failed: could not read reconnect websocket for welcome: %w"
              [] (LibError err)))
  | inr _ => ret tt
  end ;;
  match parseBaseMessage data with
  | (metadata, err) =>
      match err with
      | Some e =>
          c ← self;
          call (onError c)
               (ArgError (ErrorfW "reconnect failed: could parse base message: %w" [] e))
      | None => ret tt
      end ;;
      if decide (MessageType metadata = "session_welcome") then ret true
      else
        c ← self;
        call (onError c)
             (ArgError (Errorf
                "reconnect failed: did not get a session_welcome message first: got message %s"
                [Str (MessageType metadata)])) ;;
        ret false
  end.

Definition set_handoff (i : nat) (h : Handoff) (s : State) : State :=
  with_handoffs (<[i := h]> (handoffs s)) s.

(** A step of the [i]-th goroutine started by [reconnect]. *)
Definition handoff_step `{Json} (i : nat) (s : State) : option State :=
  match handoffs s !! i with
  | None => None
  | Some (HRead new) =>
      match ws_Read new s with
      | None => None
      | Some (r, s1) =>
          Some (crash (await_welcome r s1)
                      (fun ok s2 => set_handoff i (if ok then HMark new else HDone) s2))
      end
  | Some (HMark new) =>
      Some (set_handoff i (HClose new)
              (with_client (set_reconnecting true (client s)) s))
  | Some (HClose new) =>
      Some (crash ((c ← self; ws_Close (ws c) StatusNormalClosure) s)
                  (fun _ s1 => set_handoff i (HSwap new) s1))
  | Some (HSwap new) =>
      Some (set_handoff i (HSend new) (with_client (set_ws (Some new) (client s)) s))
  | Some (HSend new) =>
      match loop s with
      | LRecv => Some (set_handoff i HDone (with_loop LRead s))
      | _ => None
      end
  | Some HDone => None
  end.

Inductive Tid :=
| TLoop
| THandoff (i : nat).

#[global] Instance Tid_eq_dec : EqDecision Tid.
Proof. solve_decision. Defined.

(** A step of the program: one goroutine moves, unless the program has
    panicked. *)
Definition thread_step `{Json} `{Declarations} (t : Tid) (s : State) : option State :=
  if panicked s then None
  else match t with
       | TLoop => loop_step s
       | THandoff i => handoff_step i s
       end.

Definition step `{Json} `{Declarations} (s s' : State) : Prop :=
  exists t, thread_step t s = Some s'.

(** Running a schedule. *)
Fixpoint run `{Json} `{Declarations} (sched : list Tid) (s : State) : option State :=
  match sched with
  | [] => Some s
  | t :: sched' =>
      match thread_step t s with
      | Some s' => run sched' s'
      | None => None
      end
  end.

(** ** A small instance to run the model on

    Frames of the sample wire format are ASCII texts [type] or
    [type:rest]; the empty frame does not parse.  A reconnect frame carries
    the new address after the colon, a notification frame the subscription
    type. *)

Fixpoint before_colon (s : string) : string :=
  match s with
  | EmptyString => EmptyString
  | String a rest => if Ascii.eqb a (Ascii.ascii_of_nat 58) then EmptyString else String a (before_colon rest)
  end.

Fixpoint after_colon (s : string) : string :=
  match s with
  | EmptyString => EmptyString
  | String a rest => if Ascii.eqb a (Ascii.ascii_of_nat 58) then rest else after_colon rest
  end.

Definition frame (s : string) : bytes := String.list_byte_of_string s.

Definition syntaxError : liberror :=
  {| isCanceled := false; CloseStatus := -1; text := "unexpected end of JSON input" |}.

Definition sample_metadata (data : bytes) : MessageMetadata :=
  {| MessageID := "id"; MessageType := before_colon (string_of_bytes data);
     MessageTimestamp := "now" |}.

Definition sample_decode {A} (f : bytes -> A) (data : bytes) : liberror + A :=
  match data with
  | [] => inl syntaxError
  | _ => inr (f data)
  end.

#[global] Instance sample_Json : Json := {|
  unmarshal_BaseMessage := sample_decode sample_metadata;
  unmarshal_WelcomeMessage :=
    sample_decode (fun d => {| Welcome_Metadata := sample_metadata d;
                               Welcome_Payload := [("session", "s1")] |});
  unmarshal_KeepAliveMessage :=
    sample_decode (fun d => {| KeepAlive_Metadata := sample_metadata d;
                               KeepAlive_Payload := [] |});
  unmarshal_NotificationMessage :=
    sample_decode (fun d =>
      {| Notification_Metadata := sample_metadata d;
         Payload_Subscription :=
           {| Subscription_Type := after_colon (string_of_bytes d);
              Subscription_Version := "1"; Subscription_Condition := [] |};
         Payload_Event := frame "{}" |});
  unmarshal_ReconnectMessage :=
    sample_decode (fun d => {| Reconnect_Metadata := sample_metadata d;
                               ReconnectUrl := after_colon (string_of_bytes d);
                               Reconnect_Session := [] |});
  unmarshal_RevokeMessage :=
    sample_decode (fun d => {| Revoke_Metadata := sample_metadata d;
                               Revoke_Payload := [] |});
  unmarshal_Event := fun k d =>
    match k with
    | EventChannelRaid => inl syntaxError
    | _ => inr [("event", string_of_bytes d)]
    end;
  unmarshal_nil := syntaxError;
  Event_MarshalJSON := fun ev => inr ev
|}.

(** A sample [subMetadata]: two typed subscription types (the second one
    never decodes in the sample format) and one without [EventGen]. *)
#[global] Instance sample_Declarations : Declarations := {|
  subMetadata :=
    <["channel.update" := {| EventGen := Some (zeroPtrGen (TEvent EventChannelUpdate)) |}]>
    (<["channel.raid" := {| EventGen := Some (zeroPtrGen (TEvent EventChannelRaid)) |}]>
    (<["channel.untyped" := {| EventGen := None |}]> ∅))
|}.

(** A client with every outer handler and the raw hook registered, and a
    handler for [EventChannelUpdate]. *)
Definition sample_client : Client :=
  {| Address := "wss://old"; ws := None; connected := false; ctx := None;
     reconnecting := false; onError := Some 1; onWelcome := Some 2;
     onKeepAlive := Some 3; onNotification := Some 4; onReconnect := Some 5;
     onRevoke := Some 6; onRawEvent := Some 7;
     onEvent := fun k => match k with EventChannelUpdate => Some 8 | _ => None end |}.

Definition open_conn (frames : list string) : Conn :=
  {| inbox := (fun s => inr (frame s)) <$> frames; closed := None; closeResult := None |}.

Definition dialError : liberror :=
  {| isCanceled := false; CloseStatus := -1; text := "no such host" |}.

(** A network with the first address serving [old] and a second address
    serving [new]. *)
Definition sample_network (old new : list string) (a : string) : liberror + Conn :=
  if String.eqb a "wss://old" then inr (open_conn old)
  else if String.eqb a "wss://new" then inr (open_conn new)
  else inl dialError.

Definition start (c : Client) (old new : list string) : State :=
  {| client := c;
     world := {| conns := []; network := sample_network old new |};
     loop := Connect; handoffs := []; panicked := false; log := [] |}.

(** ** Vocabulary of the properties *)

(** The five message variants. *)
Definition is_message (v : any) : Prop :=
  match v with
  | PtrWelcomeMessage _ | PtrKeepAliveMessage _ | PtrNotificationMessage _
  | PtrReconnectMessage _ | PtrRevokeMessage _ => True
  | _ => False
  end.

(** The invocations [callFunc(f, v)] makes: one when [f] is registered. *)
Definition invocation (f : option callback) (v : Arg) : list Effect :=
  match f with
  | Some g => [Go g v]
  | None => []
  end.

(** The handler field of the client for the kind of a decoded message, the
    argument that message is passed as, and the invocation of that handler
    on that message. *)
Definition handler_of (c : Client) (message : any) : option callback :=
  match message with
  | PtrWelcomeMessage _ => onWelcome c
  | PtrKeepAliveMessage _ => onKeepAlive c
  | PtrNotificationMessage _ => onNotification c
  | PtrReconnectMessage _ => onReconnect c
  | PtrRevokeMessage _ => onRevoke c
  | _ => None
  end.

Definition message_arg (message : any) : option Arg :=
  match message with
  | PtrWelcomeMessage m => Some (ArgWelcome m)
  | PtrKeepAliveMessage m => Some (ArgKeepAlive m)
  | PtrNotificationMessage m => Some (ArgNotification m)
  | PtrReconnectMessage m => Some (ArgReconnect m)
  | PtrRevokeMessage m => Some (ArgRevoke m)
  | _ => None
  end.

Definition invocation_of (c : Client) (message : any) : list Effect :=
  match message_arg message with
  | Some v => invocation (handler_of c message) v
  | None => []
  end.

Definition arg_of (e : Effect) : Arg :=
  match e with
  | Go _ v => v
  | Call _ v => v
  end.

(** An invocation of a handler of a message kind: its argument is a
    message. *)
Definition message_level (e : Effect) : Prop :=
  match arg_of e with
  | ArgWelcome _ | ArgKeepAlive _ | ArgNotification _ | ArgReconnect _
  | ArgRevoke _ => True
  | _ => False
  end.

(** An invocation of a handler of an event: the raw hook or a typed event
    handler. *)
Definition event_level (e : Effect) : Prop :=
  match arg_of e with
  | ArgRawEvent _ _ _ | ArgEvent _ _ => True
  | _ => False
  end.

(** A report to the error sink. *)
Definition error_report (e : Effect) : Prop :=
  match e with
  | Call _ (ArgError _) => True
  | _ => False
  end.

(** The effects of a computation: what it appends to the log. *)
Definition effects_from (s s' : State) (effs : list Effect) : Prop :=
  log s' = log s ++ effs.

(** The call of the raw-event hook on a notification whose event bytes are
    [data]. *)
Definition raw_hook_call (f : callback) (message : NotificationMessage)
    (data : bytes) : Effect :=
  Call f (ArgRawEvent (string_of_bytes data) (Notification_Metadata message)
                      (Payload_Subscription message)).

Definition is_raw_hook_call (e : Effect) : Prop :=
  match arg_of e with
  | ArgRawEvent _ _ _ => True
  | _ => False
  end.

(** All fields of the client but [Address] are the same. *)
Definition same_but_Address (c c' : Client) : Prop :=
  c' = set_Address (Address c') c.

(** What a dispatch may add to the program: nothing, or one transport and
    the goroutine that reads it. *)
Definition grows (s s' : State) : Prop :=
  network (world s') = network (world s) /\
  ((conns (world s') = conns (world s) /\ handoffs s' = handoffs s) \/
   (exists cn, conns (world s') = conns (world s) ++ [cn] /\
               handoffs s' = handoffs s ++ [HRead (length (conns (world s)))])).

(** The handler fields agree. *)
Definition same_handlers (c c' : Client) : Prop :=
  onError c' = onError c /\ onWelcome c' = onWelcome c /\
  onKeepAlive c' = onKeepAlive c /\ onNotification c' = onNotification c /\
  onReconnect c' = onReconnect c /\ onRevoke c' = onRevoke c /\
  onRawEvent c' = onRawEvent c /\ onEvent c' = onEvent c.

(** The status a transport was closed with, if it was. *)
Definition closed_at (s : State) (w : ConnId) : option Z :=
  match conns (world s) !! w with
  | Some cn => closed cn
  | None => None
  end.

Definition is_closed (s : State) (w : ConnId) : Prop := closed_at s w <> None.

(** The frames a transport has still to deliver. *)
Definition inbox_at (s : State) (w : ConnId) : list ReadResult :=
  match conns (world s) !! w with
  | Some cn => inbox cn
  | None => []
  end.

(** A goroutine of [reconnect] that has closed the active transport and has
    yet to install its own. *)
Definition in_window (h : Handoff) : Prop :=
  match h with
  | HSwap _ => True
  | _ => False
  end.

(** At most one goroutine of [reconnect] is between its [Close] of the
    active transport and its assignment of [c.ws]. *)
Definition exclusive (s : State) : Prop :=
  forall i j hi hj,
    handoffs s !! i = Some hi -> handoffs s !! j = Some hj ->
    in_window hi -> in_window hj -> i = j.

(** A program that is about to enter [ConnectWithContext]. *)
Definition initial (s : State) : Prop :=
  (exists ctx0, loop s = LStart ctx0) /\ handoffs s = [] /\ panicked s = false.

(** A step after which the windows of the goroutines of [reconnect] do not
    overlap. *)
Definition xstep `{Json} `{Declarations} (s s' : State) : Prop :=
  step s s' /\ exclusive s'.

(** The statement a goroutine of [reconnect] is at after one step of its
    own from [h] (a panic leaves it where it is). *)
Definition next_pc (h h' : Handoff) : Prop :=
  h' = h \/
  match h with
  | HRead n => h' = HMark n \/ h' = HDone
  | HMark n => h' = HClose n
  | HClose n => h' = HSwap n
  | HSwap n => h' = HSend n
  | HSend n => h' = HDone
  | HDone => False
  end.

(** What one step of thread [t] may change. *)
Record Facts (t : Tid) (s s' : State) : Prop := {
  F_running : panicked s = false;
  F_handlers : same_handlers (client s) (client s');
  F_closed : forall w, is_closed s w -> is_closed s' w;
  F_others : forall i h, handoffs s !! i = Some h -> t <> THandoff i ->
                         handoffs s' !! i = Some h;
  F_spawned : forall i h', handoffs s' !! i = Some h' -> handoffs s !! i = None ->
                           exists n, h' = HRead n;
  F_own : forall i, t = THandoff i ->
            exists h h', handoffs s !! i = Some h /\ handoffs s' !! i = Some h' /\
                         next_pc h h';
  F_active : ws (client s') <> ws (client s) ->
             (t = TLoop /\ exists ctx0, loop s = LStart ctx0) \/
             (exists i new, t = THandoff i /\ handoffs s !! i = Some (HSwap new) /\
                            handoffs s' !! i = Some (HSend new) /\
                            ws (client s') = Some new);
  F_close : forall i n, t = THandoff i -> handoffs s !! i = Some (HClose n) ->
              handoffs s' !! i = Some (HSwap n) ->
              forall w, ws (client s') = Some w -> is_closed s' w;
  F_reading : forall w, loop s' = LReading w ->
                loop s = LReading w \/ (loop s = LRead /\ ws (client s') = Some w);
  F_started : forall ctx0, loop s' = LStart ctx0 -> loop s = LStart ctx0 /\ t <> TLoop;
  F_guard : loop s' = LReturn (Some ErrNilOnWelcome) ->
            loop s = LReturn (Some ErrNilOnWelcome) \/
            ((exists ctx0, loop s = LStart ctx0) /\ onWelcome (client s) = None)
}.

(** [ConnectWithContext] has not returned [ErrNilOnWelcome] and, while it
    has yet to check, a Welcome handler is registered. *)
Definition guard_passed (s : State) : Prop :=
  loop s <> LReturn (Some ErrNilOnWelcome) /\
  forall ctx0, loop s = LStart ctx0 -> onWelcome (client s) <> None.

(** [Close] called by the application while the goroutine of [reconnect]
    is between its [Close] of the old transport and its assignment of
    [c.ws], and the goroutine's assignment after it: the client is not
    connected and holds the new transport. *)
Definition close_during_handoff : option State :=
  s1 ← run [TLoop; TLoop; TLoop; TLoop; TLoop;
            THandoff 0; THandoff 0; THandoff 0]
           (start sample_client ["session_welcome"; "session_reconnect:wss://new"]
                  ["session_welcome"]);
  run [THandoff 0] (state_of (Close s1)).

(** The invariant of runs whose windows do not overlap: while
    [ConnectWithContext] has not dialed there is no goroutine of
    [reconnect]; while a goroutine is in its window the active transport is
    closed; and the transport the loop is reading is the active one or is
    closed. *)
Definition handoff_inv (s : State) : Prop :=
  exclusive s /\
  (forall ctx0, loop s = LStart ctx0 -> handoffs s = []) /\
  (forall i n, handoffs s !! i = Some (HSwap n) ->
               forall w, ws (client s) = Some w -> is_closed s w) /\
  (forall w, loop s = LReading w -> ws (client s) = Some w \/ is_closed s w).

(** Two [session_reconnect] frames in a row: both goroutines close the old
    transport before either installs its own; the second installs
    transport 2, the loop starts a [Read] on it, and the state is the one
    before the first goroutine's assignment. *)
Definition overlapping_handoffs : option State :=
  run [TLoop; TLoop; TLoop; TLoop; TLoop; TLoop; TLoop;
       THandoff 0; THandoff 0; THandoff 0;
       THandoff 1; THandoff 1; THandoff 1;
       THandoff 1; TLoop]
      (start sample_client
             ["session_welcome"; "session_reconnect:wss://new";
              "session_reconnect:wss://new"]
             ["session_welcome"; "session_keepalive"]).

(** A check of [exclusive] that computes: the number of goroutines in their
    window. *)
Definition in_windowb (h : Handoff) : bool :=
  match h with
  | HSwap _ => true
  | _ => false
  end.

Fixpoint windows (hs : list Handoff) : nat :=
  match hs with
  | [] => 0
  | h :: hs' => (if in_windowb h then 1 else 0) + windows hs'
  end.

Definition exclusiveb (s : State) : bool := bool_decide (windows (handoffs s) <= 1).

(** Running a schedule while the windows do not overlap. *)
Fixpoint xrun `{Json} `{Declarations} (sched : list Tid) (s : State) : option State :=
  match sched with
  | [] => Some s
  | t :: sched' =>
      match thread_step t s with
      | Some s' => if exclusiveb s' then xrun sched' s' else None
      | None => None
      end
  end.

(** ** Sample inputs *)

(** A client before [Connect], with no transport dialed. *)
Definition idle_state : State := start sample_client [] [].

(** The loop inside [Read] on transport 0, which has [frames] to deliver. *)
Definition reading_state (frames : list string) : State :=
  {| client := set_ws (Some 0) (set_connected true sample_client);
     world := {| conns := [open_conn frames]; network := sample_network [] [] |};
     loop := LReading 0; handoffs := []; panicked := false; log := [] |}.

(** The goroutine of [reconnect] about to read transport 1, which has
    [frames] to deliver, while the loop reads transport 0. *)
Definition handoff_state (frames : list string) : State :=
  {| client := set_ws (Some 0) (set_connected true sample_client);
     world := {| conns := [open_conn []; open_conn frames];
                 network := sample_network [] [] |};
     loop := LReading 0; handoffs := [HRead 1]; panicked := false; log := [] |}.

Definition sample_notification (type : string) : NotificationMessage :=
  {| Notification_Metadata := sample_metadata (frame ("notification:" +:+ type));
     Payload_Subscription :=
       {| Subscription_Type := type; Subscription_Version := "1";
          Subscription_Condition := [] |};
     Payload_Event := frame "{}" |}.

(** A run with one handoff, up to the goroutine's window. *)
Definition one_handoff : list Tid :=
  [TLoop; TLoop; TLoop; TLoop; TLoop; THandoff 0; THandoff 0; THandoff 0; TLoop].

Definition one_handoff_start : State :=
  start sample_client ["session_welcome"; "session_reconnect:wss://new"]
        ["session_welcome"; "session_keepalive"].

(** The states before and after the goroutine's assignment in that run. *)
Definition before_swap : State :=
  default idle_state (xrun one_handoff one_handoff_start).

Definition after_swap : State :=
  default idle_state (xrun [THandoff 0] before_swap).

(** ** The registration surface *)

#[global] Instance EventKind_eq_dec : EqDecision EventKind.
Proof. solve_decision. Defined.

(** [OnError(callback)] *)
Definition OnError (f : option callback) (c : Client) : Client :=
  {| Address := Address c;
     ws := ws c;
     connected := connected c;
     ctx := ctx c;
     reconnecting := reconnecting c;
     onError := f;
     onWelcome := onWelcome c;
     onKeepAlive := onKeepAlive c;
     onNotification := onNotification c;
     onReconnect := onReconnect c;
     onRevoke := onRevoke c;
     onRawEvent := onRawEvent c;
     onEvent := onEvent c |}.

(** [OnKeepAlive(callback)] *)
Definition OnKeepAlive (f : option callback) (c : Client) : Client :=
  {| Address := Address c;
     ws := ws c;
     connected := connected c;
     ctx := ctx c;
     reconnecting := reconnecting c;
     onError := onError c;
     onWelcome := onWelcome c;
     onKeepAlive := f;
     onNotification := onNotification c;
     onReconnect := onReconnect c;
     onRevoke := onRevoke c;
     onRawEvent := onRawEvent c;
     onEvent := onEvent c |}.

(** [OnNotification(callback)] *)
Definition OnNotification (f : option callback) (c : Client) : Client :=
  {| Address := Address c;
     ws := ws c;
     connected := connected c;
     ctx := ctx c;
     reconnecting := reconnecting c;
     onError := onError c;
     onWelcome := onWelcome c;
     onKeepAlive := onKeepAlive c;
     onNotification := f;
     onReconnect := onReconnect c;
     onRevoke := onRevoke c;
     onRawEvent := onRawEvent c;
     onEvent := onEvent c |}.

(** [OnReconnect(callback)] *)
Definition OnReconnect (f : option callback) (c : Client) : Client :=
  {| Address := Address c;
     ws := ws c;
     connected := connected c;
     ctx := ctx c;
     reconnecting := reconnecting c;
     onError := onError c;
     onWelcome := onWelcome c;
     onKeepAlive := onKeepAlive c;
     onNotification := onNotification c;
     onReconnect := f;
     onRevoke := onRevoke c;
     onRawEvent := onRawEvent c;
     onEvent := onEvent c |}.

(** [OnRevoke(callback)] *)
Definition OnRevoke (f : option callback) (c : Client) : Client :=
  {| Address := Address c;
     ws := ws c;
     connected := connected c;
     ctx := ctx c;
     reconnecting := reconnecting c;
     onError := onError c;
     onWelcome := onWelcome c;
     onKeepAlive := onKeepAlive c;
     onNotification := onNotification c;
     onReconnect := onReconnect c;
     onRevoke := f;
     onRawEvent := onRawEvent c;
     onEvent := onEvent c |}.

(** [OnRawEvent(callback)] *)
Definition OnRawEvent (f : option callback) (c : Client) : Client :=
  {| Address := Address c;
     ws := ws c;
     connected := connected c;
     ctx := ctx c;
     reconnecting := reconnecting c;
     onError := onError c;
     onWelcome := onWelcome c;
     onKeepAlive := onKeepAlive c;
     onNotification := onNotification c;
     onReconnect := onReconnect c;
     onRevoke := onRevoke c;
     onRawEvent := f;
     onEvent := onEvent c |}.

(** [OnEventChannelUpdate(callback)] ... [OnEventChannelModerate(callback)]:
    the setter of the field [onEvent k]. *)
Definition OnEvent (k : EventKind) (f : option callback) (c : Client) : Client :=
  {| Address := Address c; ws := ws c; connected := connected c; ctx := ctx c;
     reconnecting := reconnecting c; onError := onError c; onWelcome := onWelcome c;
     onKeepAlive := onKeepAlive c; onNotification := onNotification c;
     onReconnect := onReconnect c; onRevoke := onRevoke c;
     onRawEvent := onRawEvent c;
     onEvent := fun k' => if decide (k' = k) then f else onEvent c k' |}.

(** The invocations of the raw hook on a notification whose event bytes
    are [data]: one when the hook is registered. *)
Definition raw_hook_calls (c : Client) (message : NotificationMessage)
    (data : bytes) : list Effect :=
  match onRawEvent c with
  | Some f => [raw_hook_call f message data]
  | None => []
  end.

(** The fields of the client that say where it is in its life: everything
    but the address and the handlers. *)
Definition lifecycle (c : Client) : option ConnId * bool * option Context * bool :=
  (ws c, connected c, ctx c, reconnecting c).

(** The sample decoders, but with a welcome body that never decodes. *)
Definition strict_Json : Json := {|
  unmarshal_BaseMessage := sample_decode sample_metadata;
  unmarshal_WelcomeMessage := fun _ => inl syntaxError;
  unmarshal_KeepAliveMessage := @unmarshal_KeepAliveMessage sample_Json;
  unmarshal_NotificationMessage := @unmarshal_NotificationMessage sample_Json;
  unmarshal_ReconnectMessage := @unmarshal_ReconnectMessage sample_Json;
  unmarshal_RevokeMessage := @unmarshal_RevokeMessage sample_Json;
  unmarshal_Event := @unmarshal_Event sample_Json;
  unmarshal_nil := syntaxError;
  Event_MarshalJSON := fun ev => inr ev
|}.

(** A run in which the goroutine of [reconnect] closes and swaps while the
    loop is between two [Read]s: the loop then reads the new transport
    without having waited for the goroutine, which stays blocked on its
    send with the flag [reconnecting] still set. *)
Definition unawaited_handoff : State :=
  default idle_state
    (run [TLoop; TLoop; TLoop; TLoop; TLoop;
          THandoff 0; THandoff 0; THandoff 0; THandoff 0; TLoop]
         one_handoff_start).

(** The goroutine of [reconnect] about to read transport 1, on which the
    [Read] fails. *)
Definition failing_handoff_state : State :=
  {| client := set_ws (Some 0) (set_connected true sample_client);
     world := {| conns := [open_conn [];
                           {| inbox := [inl dialError]; closed := None;
                              closeResult := None |}];
                 network := sample_network [] [] |};
     loop := LReading 0; handoffs := [HRead 1]; panicked := false; log := [] |}.

(** The transports that exist keep their closed flag, except that an open
    one may become closed with the normal-closure status. *)
Definition closes_normally (s s' : State) : Prop :=
  length (conns (world s)) <= length (conns (world s')) /\
  forall w, w < length (conns (world s)) ->
    closed_at s' w = closed_at s w \/
    (closed_at s w = None /\ closed_at s' w = Some StatusNormalClosure).

(** The one-handoff run after the dial: transport 0 exists and is open. *)
Definition after_dial : State :=
  default idle_state (run [TLoop] one_handoff_start).

(** * Properties *)

(** ** The message-type map and the variant switch *)

Lemma messageTypeMap_Some (ty : string) (gen : unit -> any) :
  messageTypeMap !! ty = Some gen ->
  (ty = "session_welcome" /\ gen = zeroPtrGen TWelcomeMessage) \/
  (ty = "session_keepalive" /\ gen = zeroPtrGen TKeepAliveMessage) \/
  (ty = "notification" /\ gen = zeroPtrGen TNotificationMessage) \/
  (ty = "session_reconnect" /\ gen = zeroPtrGen TReconnectMessage) \/
  (ty = "revocation" /\ gen = zeroPtrGen TRevokeMessage).
Proof.
  unfold messageTypeMap. intros Hl.
  repeat (apply lookup_insert_Some in Hl as [[<- <-] | [_ Hl]]; [tauto |]).
  by rewrite lookup_empty in Hl.
Qed.

Lemma generated_is_message (ty : string) (gen : unit -> any) :
  messageTypeMap !! ty = Some gen -> is_message (gen tt).
Proof.
  intros Hl. apply messageTypeMap_Some in Hl.
  destruct Hl as [[_ ->] | [[_ ->] | [[_ ->] | [[_ ->] | [_ ->]]]]]; exact I.
Qed.

Lemma json_Unmarshal_is_message `{Json} (data : bytes) (v v' : any) :
  is_message v -> json_Unmarshal data v = inr v' -> is_message v'.
Proof.
  destruct v; simpl; try tauto; intros _; unfold sum_map;
    match goal with |- match ?d with _ => _ end = _ -> _ => destruct d end;
    intros Heq; try discriminate Heq; injection Heq as <-; exact I.
Qed.

(** C9: every generator stored in [messageTypeMap] yields one of the five
    message variants, decoding keeps the variant, and so [handleMessage]
    never returns the error of the [default] branch of its type switch. *)
Theorem C9_default_branch_unreachable `{Json} `{Declarations} :
  (forall ty gen, messageTypeMap !! ty = Some gen -> is_message (gen tt)) /\
  (forall data s args,
     value_of (handleMessage data s)
       <> Some (Some (Errorf "unhandled %T message: %v" args))).
Proof.
  split; [exact generated_is_message |].
  intros data s args. unfold handleMessage.
  unfold parseBaseMessage.
  destruct (unmarshal_BaseMessage data) as [err | metadata]; [discriminate |].
  destruct (messageTypeMap !! MessageType metadata) as [gen |] eqn:Hgen;
    [| discriminate].
  destruct (json_Unmarshal data (gen tt)) as [err | message] eqn:Hdec;
    [discriminate |].
  pose proof (json_Unmarshal_is_message _ _ _ (generated_is_message _ _ Hgen) Hdec)
    as Hmsg.
  destruct message; try (exfalso; exact Hmsg); simpl; unfold mbind, M_bind, bind, self.
  - destruct (callFunc _ _ s); simpl; discriminate.
  - destruct (callFunc _ _ s); simpl; discriminate.
  - destruct (callFunc _ _ s) as [[] s1 | s1]; [| discriminate].
    destruct (handleNotification m s1) as [[e |] s2 | s2]; simpl; discriminate.
  - destruct (callFunc _ _ s) as [[] s1 | s1]; [| discriminate].
    destruct (reconnect m s1) as [[e |] s2 | s2]; simpl; discriminate.
  - destruct (callFunc _ _ s); simpl; discriminate.
Qed.

(** ** Running the sequential code *)

Lemma with_log_id (s : State) : with_log (log s ++ []) s = s.
Proof. destruct s; unfold with_log; simpl. by rewrite app_nil_r. Qed.

Lemma callFunc_run (f : option callback) (v : Arg) (s : State) :
  callFunc f v s = Ok tt (with_log (log s ++ invocation f v) s).
Proof.
  destruct f; simpl; [reflexivity |]. unfold ret. by rewrite with_log_id.
Qed.

Lemma bind_run {A B} (m : M A) (k : A -> M B) (s : State) :
  (x ← m; k x) s = match m s with Ok a s' => k a s' | Panic s' => Panic s' end.
Proof. reflexivity. Qed.

Lemma handleNotification_unknown `{Json} `{Declarations}
    (message : NotificationMessage) (data : bytes) (s : State) :
  Event_MarshalJSON (Payload_Event message) = inr data ->
  subMetadata !! Subscription_Type (Payload_Subscription message) = None ->
  handleNotification message s =
    Ok (Some (Errorf "unknown subscription type %s"
                     [Str (Subscription_Type (Payload_Subscription message))])) s.
Proof. intros Hm Hl. unfold handleNotification. by rewrite Hm, Hl. Qed.


(** ** The Notification Router *)

Ltac run_M :=
  unfold mbind, M_bind, bind, mret, M_ret, ret, self, emit, update, spawn, call,
    callFunc, panic; simpl.

(** With an entry for the subscription type, the router first calls the raw
    hook (when registered) on the marshalled event bytes and then goes on
    from the state with that call logged. *)
Lemma handleNotification_entry `{Json} `{Declarations}
    (message : NotificationMessage) (data : bytes)
    (metadata : subscriptionMetadata) (s : State) :
  Event_MarshalJSON (Payload_Event message) = inr data ->
  subMetadata !! Subscription_Type (Payload_Subscription message) = Some metadata ->
  exists rest,
    effects_from s (state_of (handleNotification message s))
      (match onRawEvent (client s) with
       | Some f => [raw_hook_call f message data]
       | None => []
       end ++ rest) /\
    Forall (fun e => ~ is_raw_hook_call e) rest /\
    forall gen, EventGen metadata = Some gen ->
      match json_Unmarshal data (gen tt) with
      | inl err =>
          rest = [] /\
          value_of (handleNotification message s) =
            Some (Some (ErrorfW "could not unmarshal %s into %T: %w"
                          [Str (Subscription_Type (Payload_Subscription message));
                           TypeOf (gen tt)] (LibError err)))
      | inr (PtrEvent k event) =>
          rest = invocation (onEvent (client s) k) (ArgEvent k event) /\
          value_of (handleNotification message s) = Some None
      | inr _ => True
      end.
Proof.
  intros Hm Hl. unfold handleNotification, effects_from. rewrite Hm, Hl.
  set (raw := match onRawEvent (client s) with
              | Some f => [raw_hook_call f message data] | None => [] end).
  assert (Hraw :
    (match onRawEvent (client s) with
     | Some f => emit (Call f (ArgRawEvent (string_of_bytes data)
                                 (Notification_Metadata message)
                                 (Payload_Subscription message)))
     | None => ret tt
     end) s = Ok tt (with_log (log s ++ raw) s)).
  { subst raw. destruct (onRawEvent (client s)); run_M; [reflexivity |].
    by rewrite with_log_id. }
  rewrite bind_run. simpl. rewrite bind_run, Hraw.
  destruct (EventGen metadata) as [gen |] eqn:Hgen.
  - destruct (json_Unmarshal data (gen tt)) as [err | newEvent] eqn:Hdec.
    + exists []. simpl. rewrite app_nil_r. split; [reflexivity |].
      split; [constructor |]. intros gen' [= <-]. rewrite Hdec. by split.
    + destruct newEvent as [| | | | | | k event].
      all: try (run_M; destruct (onError (client s)); simpl;
                [eexists [_]; rewrite <- app_assoc; split; [reflexivity |];
                 split; [repeat constructor; simpl; tauto |];
                 intros gen' [= <-]; by rewrite Hdec
                |exists []; rewrite app_nil_r; split; [reflexivity |];
                 split; [constructor |];
                 intros gen' [= <-]; by rewrite Hdec]).
      rewrite bind_run. simpl. rewrite bind_run, callFunc_run. simpl.
      exists (invocation (onEvent (client s) k) (ArgEvent k event)).
      rewrite <- app_assoc. split; [reflexivity |]. split.
      * destruct (onEvent (client s) k); repeat constructor; simpl; tauto.
      * intros gen' [= <-]. rewrite Hdec. by split.
  - run_M. destruct (onError (client s)); simpl.
    + eexists [_]. rewrite <- app_assoc. split; [reflexivity |].
      split; [repeat constructor; simpl; tauto | discriminate].
    + exists []. rewrite app_nil_r. split; [reflexivity |].
      split; [constructor | discriminate].
Qed.

(** C4 (as amended): when the subscription type has an entry in
    [subMetadata] and the event bytes were obtained, the registered raw
    hook is called exactly once, first, with the undecoded event bytes, the
    outer metadata and the subscription, whether or not the entry has a
    typed target; when it has one, the typed decode reads the very bytes
    the hook was given. *)
Theorem C4_raw_hook_with_entry `{Json} `{Declarations}
    (message : NotificationMessage) (data : bytes)
    (metadata : subscriptionMetadata) (f : callback) (s : State) :
  Event_MarshalJSON (Payload_Event message) = inr data ->
  subMetadata !! Subscription_Type (Payload_Subscription message) = Some metadata ->
  onRawEvent (client s) = Some f ->
  exists rest,
    effects_from s (state_of (handleNotification message s))
      (Call f (ArgRawEvent (string_of_bytes data) (Notification_Metadata message)
                           (Payload_Subscription message)) :: rest) /\
    Forall (fun e => ~ is_raw_hook_call e) rest /\
    forall gen, EventGen metadata = Some gen ->
      match json_Unmarshal data (gen tt) with
      | inl err =>
          rest = [] /\
          value_of (handleNotification message s) =
            Some (Some (ErrorfW "could not unmarshal %s into %T: %w"
                          [Str (Subscription_Type (Payload_Subscription message));
                           TypeOf (gen tt)] (LibError err)))
      | inr (PtrEvent k event) =>
          rest = invocation (onEvent (client s) k) (ArgEvent k event) /\
          value_of (handleNotification message s) = Some None
      | inr _ => True
      end.
Proof.
  intros Hm Hl Hf.
  destruct (handleNotification_entry message data metadata s Hm Hl)
    as (rest & Hlog & Hrest & Htyped).
  rewrite Hf in Hlog. exists rest. by repeat split.
Qed.

(** C10: with an entry for the subscription type, the registered raw hook is
    called before the typed decode is attempted: when the typed decode
    fails, the router returns the decode error and the call of the hook on
    the original event bytes is what it has done. *)
Theorem C10_raw_hook_before_decode `{Json} `{Declarations}
    (message : NotificationMessage) (data : bytes)
    (metadata : subscriptionMetadata) (gen : unit -> any) (err : liberror)
    (f : callback) (s : State) :
  Event_MarshalJSON (Payload_Event message) = inr data ->
  subMetadata !! Subscription_Type (Payload_Subscription message) = Some metadata ->
  onRawEvent (client s) = Some f ->
  EventGen metadata = Some gen ->
  json_Unmarshal data (gen tt) = inl err ->
  handleNotification message s =
    Ok (Some (ErrorfW "could not unmarshal %s into %T: %w"
                [Str (Subscription_Type (Payload_Subscription message)); TypeOf (gen tt)]
                (LibError err)))
       (with_log
          (log s ++ [Call f (ArgRawEvent (string_of_bytes data)
                               (Notification_Metadata message)
                               (Payload_Subscription message))]) s).
Proof.
  intros Hm Hl Hf Hgen Hdec. unfold handleNotification.
  rewrite Hm, Hl. run_M. by rewrite Hf, Hgen, Hdec.
Qed.

(** ** The Dispatcher *)

Lemma reconnect_log (message : ReconnectMessage) (s : State) :
  log (state_of (reconnect message s)) = log s.
Proof.
  unfold reconnect. run_M. unfold dial. simpl.
  by destruct (network (world s) (ReconnectUrl message)).
Qed.

(** [handleMessage] on a frame that decodes into [message]: the handler of
    the kind, then the router or the handoff. *)
Lemma handleMessage_decoded `{Json} `{Declarations} (data : bytes)
    (metadata : MessageMetadata) (gen : unit -> any) (message : any) (s : State) :
  parseBaseMessage data = (metadata, None) ->
  messageTypeMap !! MessageType metadata = Some gen ->
  json_Unmarshal data (gen tt) = inr message ->
  let s1 := with_log (log s ++ invocation_of (client s) message) s in
  handleMessage data s =
    match message with
    | PtrNotificationMessage msg =>
        match handleNotification msg s1 with
        | Ok (Some e) s2 =>
            Ok (Some (ErrorfW "could not handle notification: %w" [] e)) s2
        | Ok None s2 => Ok None s2
        | Panic s2 => Panic s2
        end
    | PtrReconnectMessage msg =>
        match reconnect msg s1 with
        | Ok (Some e) s2 => Ok (Some (ErrorfW "could not handle reconnect: %w" [] e)) s2
        | Ok None s2 => Ok None s2
        | Panic s2 => Panic s2
        end
    | _ => Ok None s1
    end.
Proof.
  intros Hp Hl Hdec s1. unfold handleMessage. rewrite Hp, Hl, Hdec.
  pose proof (json_Unmarshal_is_message _ _ _ (generated_is_message _ _ Hl) Hdec)
    as Hmsg.
  destruct message; try (exfalso; exact Hmsg); rewrite bind_run; simpl;
    rewrite bind_run, callFunc_run; try reflexivity; rewrite bind_run;
    subst s1; simpl.
  - by destruct (handleNotification m _) as [[e |] s2 | s2].
  - by destruct (reconnect m _) as [[e |] s2 | s2].
Qed.

(** The router invokes no handler of a message kind. *)
Lemma handleNotification_effects `{Json} `{Declarations}
    (m : NotificationMessage) (s1 : State) :
  exists rest,
    log (state_of (handleNotification m s1)) = log s1 ++ rest /\
    Forall (fun e => ~ message_level e) rest.
Proof.
  unfold handleNotification.
  destruct (Event_MarshalJSON (Payload_Event m)) as [err | ev];
    [exists []; simpl; by rewrite app_nil_r |].
  destruct (subMetadata !! _) as [meta |];
    [| exists []; simpl; by rewrite app_nil_r].
  rewrite bind_run. simpl. rewrite bind_run.
  set (s2 := with_log (log s1 ++ match onRawEvent (client s1) with
                                 | Some f => [raw_hook_call f m ev]
                                 | None => [] end) s1).
  assert (Hraw : (match onRawEvent (client s1) with
                  | Some f => emit (raw_hook_call f m ev)
                  | None => ret tt end) s1 = Ok tt s2).
  { subst s2. destruct (onRawEvent (client s1)); run_M; [reflexivity |].
    by rewrite with_log_id. }
  unfold raw_hook_call in Hraw at 1. rewrite Hraw.
  assert (Hs2 : exists r2, log s2 = log s1 ++ r2 /\
                           Forall (fun e => ~ message_level e) r2).
  { subst s2. simpl. eexists; split; [reflexivity |].
    destruct (onRawEvent (client s1)); repeat constructor. simpl. tauto. }
  destruct Hs2 as (r2 & Hr2 & Hf2). clearbody s2.
  destruct (match EventGen meta with
            | Some g => (g tt, json_Unmarshal ev (g tt))
            | None => (nil_any, inr nil_any) end) as [target [err | newEvent]].
  + exists r2. by split.
  + assert (Hdef : forall e, exists r3,
      log (state_of ((c ← self; call (onError c) (ArgError e) ;; ret (@None error)) s2))
        = log s1 ++ r3 /\ Forall (fun e => ~ message_level e) r3).
    { intros e. run_M. destruct (onError (client s2)); simpl.
      - exists (r2 ++ [Call c (ArgError e)]). rewrite Hr2, <- app_assoc.
        split; [reflexivity |]. apply Forall_app. split; [exact Hf2 |].
        repeat constructor. simpl. tauto.
      - exists r2. by split. }
    destruct newEvent as [| | | | | | k event]; try apply Hdef.
    rewrite bind_run. simpl. rewrite bind_run, callFunc_run. simpl.
    exists (r2 ++ invocation (onEvent (client s2) k) (ArgEvent k event)).
    rewrite Hr2, <- app_assoc. split; [reflexivity |].
    apply Forall_app. split; [exact Hf2 |].
    destruct (onEvent (client s2) k); repeat constructor. simpl. tauto.
Qed.

(** C1: a frame with a known discriminant that decodes into its variant
    makes [handleMessage] invoke the handler registered for that kind, once
    (no invocation when none is registered), and no handler of another
    message kind; whatever else is invoked is invoked by the Notification
    Router, which runs after the notification handler, from the state that
    handler's invocation leaves. *)
Theorem C1_known_discriminant_dispatch `{Json} `{Declarations} (data : bytes)
    (metadata : MessageMetadata) (gen : unit -> any) (message : any) (s : State) :
  parseBaseMessage data = (metadata, None) ->
  messageTypeMap !! MessageType metadata = Some gen ->
  json_Unmarshal data (gen tt) = inr message ->
  let s1 := with_log (log s ++ invocation_of (client s) message) s in
  exists rest,
    effects_from s (state_of (handleMessage data s))
      (invocation_of (client s) message ++ rest) /\
    Forall (fun e => ~ message_level e) rest /\
    match message with
    | PtrNotificationMessage msg =>
        state_of (handleMessage data s) = state_of (handleNotification msg s1)
    | _ => rest = []
    end.
Proof.
  intros Hp Hl Hdec s1.
  rewrite (handleMessage_decoded data metadata gen message s Hp Hl Hdec). fold s1.
  unfold effects_from.
  destruct message.
  1, 2, 3, 6, 7: exists []; subst s1; simpl; rewrite ?app_nil_r; by repeat split.
  - destruct (handleNotification_effects m s1) as (rest & Hlog & Hrest).
    exists rest.
    assert (Hst : state_of
              match handleNotification m s1 with
              | Ok (Some e) s2 =>
                  Ok (Some (ErrorfW "could not handle notification: %w" [] e)) s2
              | Ok None s2 => Ok None s2
              | Panic s2 => Panic s2
              end = state_of (handleNotification m s1)).
    { by destruct (handleNotification m s1) as [[e |] s2 | s2]. }
    rewrite Hst, Hlog. subst s1. simpl. rewrite <- app_assoc. by repeat split.
  - exists []. rewrite app_nil_r. split; [| by split].
    assert (Hst : state_of
              match reconnect m s1 with
              | Ok (Some e) s2 =>
                  Ok (Some (ErrorfW "could not handle reconnect: %w" [] e)) s2
              | Ok None s2 => Ok None s2
              | Panic s2 => Panic s2
              end = state_of (reconnect m s1)).
    { by destruct (reconnect m s1) as [[e |] s2 | s2]. }
    rewrite Hst. apply reconnect_log.
Qed.

Lemma ws_Read_frame (w : ConnId) (s s1 : State) (r : ReadResult) :
  ws_Read w s = Some (r, s1) ->
  client s1 = client s /\ log s1 = log s /\ loop s1 = loop s /\
  handoffs s1 = handoffs s /\ panicked s1 = panicked s.
Proof.
  unfold ws_Read. destruct (conns (world s) !! w) as [cn |]; [| discriminate].
  destruct (closed cn); [intros [= _ <-]; by repeat split |].
  destruct (inbox cn); [discriminate |]. intros [= _ <-]. by repeat split.
Qed.

(** C5: when the loop reads a frame whose discriminant is not a key of
    [messageTypeMap], the only thing done is one call of the error sink,
    with an error that carries the unrecognized type, and the loop is back
    at its [Read]. *)
Theorem C5_unknown_discriminant `{Json} `{Declarations} (s s1 : State) (w : ConnId)
    (data : bytes) (metadata : MessageMetadata) (sink : callback) :
  panicked s = false ->
  loop s = LReading w ->
  ws_Read w s = Some (inr data, s1) ->
  parseBaseMessage data = (metadata, None) ->
  messageTypeMap !! MessageType metadata = None ->
  onError (client s) = Some sink ->
  thread_step TLoop s =
    Some (with_loop LRead
            (with_log
               (log s1 ++
                [Call sink (ArgError (Errorf "unknown message type %s: %s"
                                        [Str (MessageType metadata);
                                         Str (string_of_bytes data)]))]) s1)).
Proof.
  intros Hpanic Hloop Hread Hp Hl Hsink.
  destruct (ws_Read_frame _ _ _ _ Hread) as (Hc & _).
  unfold thread_step, loop_step. rewrite Hpanic, Hloop, Hread.
  unfold dispatch, handleMessage. rewrite Hp, Hl. run_M.
  by rewrite Hc, Hsink.
Qed.

(** C6: a notification whose subscription type has no entry in
    [subMetadata] makes the router return the unknown-type error without
    invoking the raw hook or a typed handler; the loop reports the error,
    wrapped by [handleMessage], to the error sink. *)
Theorem C6_unknown_subscription_type `{Json} `{Declarations} (data ev : bytes)
    (metadata : MessageMetadata) (gen : unit -> any) (m : NotificationMessage)
    (sink : callback) (s : State) :
  parseBaseMessage data = (metadata, None) ->
  messageTypeMap !! MessageType metadata = Some gen ->
  json_Unmarshal data (gen tt) = inr (PtrNotificationMessage m) ->
  Event_MarshalJSON (Payload_Event m) = inr ev ->
  subMetadata !! Subscription_Type (Payload_Subscription m) = None ->
  onError (client s) = Some sink ->
  let unknown := Errorf "unknown subscription type %s"
                        [Str (Subscription_Type (Payload_Subscription m))] in
  let effs := invocation (onNotification (client s)) (ArgNotification m) ++
              [Call sink (ArgError (ErrorfW "could not handle notification: %w" []
                                            unknown))] in
  handleNotification m s = Ok (Some unknown) s /\
  dispatch data s = Ok tt (with_log (log s ++ effs) s) /\
  Forall (fun e => ~ event_level e) effs.
Proof.
  intros Hp Hl Hdec Hm Hsub Hsink unknown effs. split; [| split].
  - by apply handleNotification_unknown with ev.
  - unfold dispatch. rewrite bind_run.
    rewrite (handleMessage_decoded data metadata gen _ s Hp Hl Hdec).
    rewrite (handleNotification_unknown m ev _ Hm Hsub). run_M.
    rewrite Hsink. subst effs unknown. unfold emit, with_log. simpl.
    by rewrite <- app_assoc.
  - subst effs. apply Forall_app. split.
    + destruct (onNotification (client s)); repeat constructor. simpl. tauto.
    + repeat constructor. simpl. tauto.
Qed.

(** ** What the sequential code leaves alone *)

Lemma same_but_Address_refl (c : Client) : same_but_Address c c.
Proof. by destruct c. Qed.

Lemma handleNotification_only_logs `{Json} `{Declarations}
    (m : NotificationMessage) (s : State) :
  state_of (handleNotification m s) =
    with_log (log (state_of (handleNotification m s))) s.
Proof.
  assert (Hid : forall s0 : State, s0 = with_log (log s0) s0) by (by intros []).
  unfold handleNotification.
  destruct (Event_MarshalJSON (Payload_Event m)) as [err | ev]; [apply Hid |].
  destruct (subMetadata !! _) as [meta |]; [| apply Hid].
  run_M.
  destruct (onRawEvent (client s)); simpl;
    (destruct (match EventGen meta with
               | Some g => (g tt, json_Unmarshal ev (g tt))
               | None => (nil_any, inr nil_any) end) as [target [err | newEvent]];
     [by destruct s |]);
    destruct newEvent; simpl;
    try (destruct (onError (client s)); by destruct s);
    destruct (onEvent (client s) k); by destruct s.
Qed.

Lemma reconnect_frame (m : ReconnectMessage) (s : State) :
  let s' := state_of (reconnect m s) in
  client s' = set_Address (ReconnectUrl m) (client s) /\
  loop s' = loop s /\ panicked s' = panicked s /\ log s' = log s /\ grows s s'.
Proof.
  unfold reconnect, grows. run_M. unfold dial. simpl.
  destruct (network (world s) (ReconnectUrl m)) as [err | cn]; simpl.
  - repeat split; auto.
  - repeat split; eauto.
Qed.

Lemma handleMessage_frame `{Json} `{Declarations} (data : bytes) (s : State) :
  let s' := state_of (handleMessage data s) in
  same_but_Address (client s) (client s') /\
  loop s' = loop s /\ panicked s' = panicked s /\ grows s s'.
Proof.
  assert (Hsame : forall l,
    same_but_Address (client s) (client (with_log l s)) /\
    loop (with_log l s) = loop s /\ panicked (with_log l s) = panicked s /\
    grows s (with_log l s)).
  { intros l. simpl. split; [apply same_but_Address_refl |].
    repeat split; auto. }
  assert (Hs : same_but_Address (client s) (client s) /\
               loop s = loop s /\ panicked s = panicked s /\ grows s s).
  { split; [apply same_but_Address_refl |]. repeat split; auto. }
  unfold handleMessage, parseBaseMessage.
  destruct (unmarshal_BaseMessage data) as [err | metadata]; [exact Hs |].
  destruct (messageTypeMap !! MessageType metadata) as [gen |]; [| exact Hs].
  destruct (json_Unmarshal data (gen tt)) as [err | message]; [exact Hs |].
  destruct message; try exact Hs; rewrite bind_run; simpl;
    rewrite bind_run, callFunc_run; try apply Hsame; rewrite bind_run.
  - set (s1 := with_log _ s).
    assert (Hst : state_of
              match handleNotification m s1 with
              | Ok a s' =>
                  match a with
                  | Some e =>
                      ret (Some (ErrorfW "could not handle notification: %w" [] e))
                  | None => ret None
                  end s'
              | Panic s' => Panic s'
              end = state_of (handleNotification m s1)).
    { by destruct (handleNotification m s1) as [[e |] s2 | s2]. }
    rewrite Hst, handleNotification_only_logs. apply (Hsame _).
  - set (s1 := with_log _ s).
    assert (Hst : state_of
              match reconnect m s1 with
              | Ok a s' =>
                  match a with
                  | Some e =>
                      ret (Some (ErrorfW "could not handle reconnect: %w" [] e))
                  | None => ret None
                  end s'
              | Panic s' => Panic s'
              end = state_of (reconnect m s1)).
    { by destruct (reconnect m s1) as [[e |] s2 | s2]. }
    rewrite Hst. destruct (reconnect_frame m s1) as (Hc & Hl & Hp & _ & Hg).
    rewrite Hc, Hl, Hp. split; [unfold same_but_Address; by destruct s as [[]] |].
    repeat split; auto; apply Hg.
Qed.

Lemma dispatch_frame `{Json} `{Declarations} (data : bytes) (s : State) :
  let s' := state_of (dispatch data s) in
  same_but_Address (client s) (client s') /\
  loop s' = loop s /\ panicked s' = panicked s /\ grows s s'.
Proof.
  unfold dispatch. rewrite bind_run.
  pose proof (handleMessage_frame data s) as Hf. simpl in Hf.
  destruct (handleMessage data s) as [[e |] s1 | s1]; simpl in *; try exact Hf.
  run_M. destruct (onError (client s1)); exact Hf.
Qed.

(** ** What a step changes *)

Lemma same_handlers_refl (c : Client) : same_handlers c c.
Proof. by repeat split. Qed.

Lemma same_but_Address_handlers (c c' : Client) :
  same_but_Address c c' -> same_handlers c c'.
Proof. unfold same_but_Address. intros ->. by repeat split. Qed.

Lemma same_but_Address_fields (c c' : Client) :
  same_but_Address c c' ->
  ws c' = ws c /\ connected c' = connected c /\ ctx c' = ctx c /\
  reconnecting c' = reconnecting c.
Proof. unfold same_but_Address. intros ->. by repeat split. Qed.

Lemma ws_Read_world (w : ConnId) (s s1 : State) (r : ReadResult) :
  ws_Read w s = Some (r, s1) ->
  network (world s1) = network (world s) /\
  length (conns (world s1)) = length (conns (world s)) /\
  (forall w', closed_at s1 w' = closed_at s w') /\
  (forall w', w' <> w -> conns (world s1) !! w' = conns (world s) !! w') /\
  match r with
  | inr data => closed_at s w = None /\ inbox_at s w = inr data :: inbox_at s1 w
  | inl err => True
  end.
Proof.
  unfold ws_Read, closed_at, inbox_at.
  destruct (conns (world s) !! w) as [cn |] eqn:Hcn; [| discriminate].
  destruct (closed cn) eqn:Hcl.
  { intros [= <- <-]. by repeat split. }
  destruct (inbox cn) as [| r0 rest] eqn:Hin; [discriminate |].
  intros [= <- <-]. simpl.
  assert (Hlt : w < length (conns (world s))) by (by eapply lookup_lt_Some).
  split; [reflexivity |]. split; [by rewrite length_insert |]. split; [| split].
  - intros w'. destruct (decide (w' = w)) as [-> |].
    + rewrite list_lookup_insert_eq by done. by rewrite Hcn.
    + by rewrite list_lookup_insert_ne.
  - intros w' Hne. by rewrite list_lookup_insert_ne.
  - destruct r0; [exact I |]. rewrite list_lookup_insert_eq by done.
    simpl. by rewrite Hin.
Qed.

Lemma await_welcome_only_logs `{Json} (r : ReadResult) (s : State) :
  state_of (await_welcome r s) = with_log (log (state_of (await_welcome r s))) s.
Proof.
  unfold await_welcome.
  destruct (parseBaseMessage _) as [metadata err].
  destruct (onError (client s)) eqn:Hsink; destruct r as [e | d]; destruct err;
    do 3 (run_M; rewrite ?Hsink; simpl; try case_decide);
    by destruct s.
Qed.

Lemma is_closed_app (s s' : State) (cn : Conn) (w : ConnId) :
  conns (world s') = conns (world s) ++ [cn] -> is_closed s w -> is_closed s' w.
Proof.
  unfold is_closed, closed_at. intros ->.
  destruct (conns (world s) !! w) as [c |] eqn:Hw; [| done].
  by rewrite (lookup_app_l_Some _ _ _ _ Hw).
Qed.

Lemma grows_closed (s s' : State) (w : ConnId) :
  grows s s' -> is_closed s w -> is_closed s' w.
Proof.
  intros [_ [[Hc _] | (cn & Hc & _)]].
  - unfold is_closed, closed_at. by rewrite Hc.
  - by apply is_closed_app with cn.
Qed.

Lemma grows_handoffs (s s' : State) (i : nat) (h : Handoff) :
  grows s s' -> handoffs s !! i = Some h -> handoffs s' !! i = Some h.
Proof.
  intros [_ [[_ Hh] | (cn & _ & Hh)]] Hi; rewrite Hh; [done |].
  by apply lookup_app_l_Some.
Qed.

Lemma grows_spawned (s s' : State) (i : nat) (h' : Handoff) :
  grows s s' -> handoffs s' !! i = Some h' -> handoffs s !! i = None ->
  exists n, h' = HRead n.
Proof.
  intros [_ [[_ Hh] | (cn & _ & Hh)]]; rewrite Hh; [congruence |].
  intros Hi Hnone. apply lookup_ge_None in Hnone.
  rewrite lookup_app_r in Hi by done.
  destruct (i - length (handoffs s)) as [| k]; simpl in Hi; [| done].
  injection Hi as <-. eauto.
Qed.

Lemma ConnectWithContext_prologue_shape (ctx0 : Context) (s : State) :
  exists e s1,
    ConnectWithContext_prologue ctx0 s = Ok e s1 /\
    same_handlers (client s) (client s1) /\ handoffs s1 = handoffs s /\
    loop s1 = loop s /\ panicked s1 = panicked s /\ log s1 = log s /\
    (forall w, is_closed s w -> is_closed s1 w) /\
    (onWelcome (client s) = None -> e = Some ErrNilOnWelcome /\ s1 = s) /\
    (onWelcome (client s) <> None -> e <> Some ErrNilOnWelcome).
Proof.
  unfold ConnectWithContext_prologue. run_M.
  destruct (onWelcome (client s)) eqn:Hw.
  - unfold dial. simpl.
    destruct (network (world s) (Address (client s))) as [err | cn]; simpl.
    + eexists _, _. split; [reflexivity |]. repeat split; simpl; auto; done.
    + eexists _, _. split; [reflexivity |]. repeat split; simpl; auto; try done.
      intros w. by apply is_closed_app with cn.
  - eexists _, _. split; [reflexivity |]. repeat split; simpl; auto; done.
Qed.

Lemma ws_Close_shape (w : ConnId) (code : Z) (s : State) :
  match ws_Close (Some w) code s with
  | Ok _ s' =>
      client s' = client s /\ handoffs s' = handoffs s /\ loop s' = loop s /\
      panicked s' = panicked s /\ log s' = log s /\
      network (world s') = network (world s) /\
      is_closed s' w /\ (forall w', is_closed s w' -> is_closed s' w') /\
      (forall w', w' <> w -> conns (world s') !! w' = conns (world s) !! w') /\
      inbox_at s' w = inbox_at s w /\
      (closed_at s w = None -> closed_at s' w = Some code)
  | Panic s' => s' = s
  end.
Proof.
  unfold ws_Close, is_closed, closed_at, inbox_at.
  destruct (conns (world s) !! w) as [cn |] eqn:Hcn; [| done]. simpl.
  assert (Hlt : w < length (conns (world s))) by (by eapply lookup_lt_Some).
  repeat split; auto.
  - rewrite list_lookup_insert_eq by done. simpl. by destruct (closed cn).
  - intros w'. destruct (decide (w' = w)) as [-> |].
    + rewrite list_lookup_insert_eq by done. simpl. by destruct (closed cn).
    + by rewrite list_lookup_insert_ne.
  - intros w' Hne. by rewrite list_lookup_insert_ne.
  - by rewrite list_lookup_insert_eq.
  - rewrite list_lookup_insert_eq by done. simpl. by intros ->.
Qed.

Lemma loop_facts (s s' : State) :
  panicked s = false ->
  same_handlers (client s) (client s') ->
  (ws (client s') = ws (client s) \/ exists ctx0, loop s = LStart ctx0) ->
  (forall w, is_closed s w -> is_closed s' w) ->
  (forall i h, handoffs s !! i = Some h -> handoffs s' !! i = Some h) ->
  (forall i h', handoffs s' !! i = Some h' -> handoffs s !! i = None ->
                exists n, h' = HRead n) ->
  (forall w, loop s' = LReading w ->
             loop s = LReading w \/ (loop s = LRead /\ ws (client s') = Some w)) ->
  (forall ctx0, loop s' <> LStart ctx0) ->
  (loop s' = LReturn (Some ErrNilOnWelcome) ->
   loop s = LReturn (Some ErrNilOnWelcome) \/
   ((exists ctx0, loop s = LStart ctx0) /\ onWelcome (client s) = None)) ->
  Facts TLoop s s'.
Proof.
  intros Hrun Hh Hws Hcl Hold Hnew Hrd Hst Hg.
  split; auto.
  - intros i [=].
  - intros Hne. left. split; [done |]. destruct Hws; [congruence | done].
  - intros i n [=].
  - intros c Hc. by destruct (Hst c).
Qed.

Lemma handoff_facts (i : nat) (h h' : Handoff) (s s' : State) :
  panicked s = false ->
  handoffs s !! i = Some h ->
  handoffs s' = <[i := h']> (handoffs s) ->
  next_pc h h' ->
  same_handlers (client s) (client s') ->
  (forall w, is_closed s w -> is_closed s' w) ->
  (loop s' = loop s \/ loop s' = LRead) ->
  (ws (client s') = ws (client s) \/
   exists new, h = HSwap new /\ h' = HSend new /\ ws (client s') = Some new) ->
  (forall n, h = HClose n -> h' = HSwap n ->
             forall w, ws (client s') = Some w -> is_closed s' w) ->
  Facts (THandoff i) s s'.
Proof.
  intros Hrun Hi Hs' Hpc Hh Hcl Hloop Hws Hclose.
  assert (Hlt : i < length (handoffs s)) by (by eapply lookup_lt_Some).
  split; auto.
  - intros j hj Hj Hne. rewrite Hs', list_lookup_insert_ne; [done | congruence].
  - intros j hj. rewrite Hs'. intros Hj Hnone.
    apply lookup_ge_None in Hnone. apply lookup_lt_Some in Hj.
    rewrite length_insert in Hj. lia.
  - intros j [= <-]. exists h, h'. rewrite Hs', list_lookup_insert_eq by done. auto.
  - intros Hne. right. destruct Hws as [Heq | (new & -> & -> & Hn)]; [congruence |].
    exists i, new. rewrite Hs', list_lookup_insert_eq by done. auto.
  - intros j n [= <-] Hj. rewrite Hs', list_lookup_insert_eq by done.
    intros [= ->]. apply (Hclose n); congruence.
  - intros w Hw. destruct Hloop as [Hl | Hl]; rewrite Hl in Hw; [auto | done].
  - intros c Hc. destruct Hloop as [Hl | Hl]; rewrite Hl in Hc; [| done].
    split; [done | discriminate].
  - intros Hr. destruct Hloop as [Hl | Hl]; rewrite Hl in Hr; [auto | done].
Qed.

Lemma is_closed_same_world (s s' : State) (w : ConnId) :
  (forall w', closed_at s' w' = closed_at s w') -> is_closed s w -> is_closed s' w.
Proof. unfold is_closed. intros ->. done. Qed.

Lemma loop_step_facts `{Json} `{Declarations} (s s' : State) :
  panicked s = false -> loop_step s = Some s' -> Facts TLoop s s'.
Proof.
  intros Hrun. unfold loop_step.
  destruct (loop s) as [ctx0 | | w | |] eqn:Hloop; try discriminate.
  - (* the guard and the dial *)
    destruct (ConnectWithContext_prologue_shape ctx0 s)
      as (e & s1 & -> & Hh & Hho & Hl & Hp & _ & Hcl & Hnone & Hsome).
    simpl. intros [= <-].
    apply loop_facts; auto.
    + by destruct e.
    + eauto.
    + intros w Hw. apply Hcl in Hw. by destruct e.
    + intros i h Hi. destruct e; simpl; by rewrite Hho.
    + intros i h' Hi Hn. destruct e; simpl in Hi; rewrite Hho in Hi; congruence.
    + intros w. by destruct e.
    + intros c. by destruct e.
    + intros Hr. right. split; [eauto |].
      destruct (onWelcome (client s)) eqn:Hw; [| done].
      destruct e as [e |]; [| done]. simpl in Hr. injection Hr as ->.
      by destruct Hsome.
  - (* the call of Read *)
    destruct (ws (client s)) as [w |] eqn:Hws; intros [= <-];
      apply loop_facts; simpl; auto using same_handlers_refl; try congruence.
    intros w' [= <-]. auto.
  - (* the return of Read *)
    destruct (ws_Read w s) as [[[err | data] s1] |] eqn:Hread; [| | discriminate].
    + destruct (ws_Read_frame _ _ _ _ Hread) as (Hc & _ & Hl & Hho & Hp).
      destruct (ws_Read_world _ _ _ _ Hread) as (_ & _ & Hcl & _).
      intros [= <-]. unfold on_read_error.
      apply loop_facts; auto;
        repeat case_match; simpl; rewrite ?Hc, ?Hho;
        auto using same_handlers_refl; try congruence;
        try (by repeat split);
        intros w'; by apply is_closed_same_world.
    + destruct (ws_Read_frame _ _ _ _ Hread) as (Hc & _ & Hl & Hho & Hp).
      destruct (ws_Read_world _ _ _ _ Hread) as (_ & _ & Hcl & _).
      pose proof (dispatch_frame data s1) as (Hsame & Hl2 & Hp2 & Hg).
      assert (Hcl2 : forall w', is_closed s w' -> is_closed (state_of (dispatch data s1)) w').
      { intros w' Hw'. eapply grows_closed; [exact Hg |].
        by apply is_closed_same_world with s. }
      destruct (same_but_Address_fields _ _ Hsame) as (Hws & _).
      apply same_but_Address_handlers in Hsame.
      intros [= <-].
      destruct (dispatch data s1) as [[] s2 | s2]; simpl in *;
        apply loop_facts; simpl; rewrite <- ?Hc; auto; try congruence.
      all: try (intros i h Hi; eapply grows_handoffs; [exact Hg |]; congruence).
      all: try (intros i h' Hi Hn; eapply grows_spawned; [exact Hg | exact Hi |];
                congruence).
      all: intros; left; congruence.
Qed.

Lemma handoff_step_facts `{Json} (i : nat) (s s' : State) :
  panicked s = false -> handoff_step i s = Some s' -> Facts (THandoff i) s s'.
Proof.
  intros Hrun. unfold handoff_step.
  destruct (handoffs s !! i) as [h |] eqn:Hi; [| discriminate].
  assert (Hid : handoffs s = <[i := h]> (handoffs s)) by (by rewrite list_insert_id).
  destruct h as [new | new | new | new | new |]; try discriminate.
  - (* the read of the first frame and the checks *)
    destruct (ws_Read new s) as [[r s1] |] eqn:Hread; [| discriminate].
    destruct (ws_Read_frame _ _ _ _ Hread) as (Hc & _ & Hl & Hho & Hp).
    destruct (ws_Read_world _ _ _ _ Hread) as (_ & _ & Hcl & _).
    pose proof (await_welcome_only_logs r s1) as Hlog.
    intros [= <-].
    destruct (await_welcome r s1) as [ok s2 | s2]; simpl in Hlog; rewrite Hlog; simpl.
    + apply handoff_facts with (HRead new) (if ok then HMark new else HDone);
        simpl; rewrite ?Hc, ?Hho; auto using same_handlers_refl; try congruence.
      * right. destruct ok; auto.
      * intros w. by apply is_closed_same_world.
    + apply handoff_facts with (HRead new) (HRead new);
        simpl; rewrite ?Hc, ?Hho; auto using same_handlers_refl; try congruence.
      * by left.
      * intros w. by apply is_closed_same_world.
  - (* c.reconnecting = true *)
    intros [= <-].
    apply handoff_facts with (HMark new) (HClose new); simpl; auto; try congruence.
    + by right.
    + by repeat split.
  - (* c.ws.Close *)
    run_M. destruct (ws (client s)) as [w |] eqn:Hws.
    + pose proof (ws_Close_shape w StatusNormalClosure s) as Hshape.
      destruct (ws_Close (Some w) StatusNormalClosure s) as [r s1 | s1];
        intros [= <-]; simpl.
      * destruct Hshape as (Hc & Hho & Hl & Hp & _ & _ & Hw & Hcl & _).
        apply handoff_facts with (HClose new) (HSwap new);
          simpl; rewrite ?Hc, ?Hho; auto using same_handlers_refl; try congruence.
        -- by right.
        -- intros n _ _ w' Hw'. assert (w' = w) as -> by congruence. exact Hw.
      * subst s1.
        apply handoff_facts with (HClose new) (HClose new);
          simpl; auto using same_handlers_refl; try congruence.
        by left.
    + simpl. intros [= <-].
      apply handoff_facts with (HClose new) (HClose new);
        simpl; auto using same_handlers_refl; try congruence.
      by left.
  - (* c.ws = ws *)
    intros [= <-].
    apply handoff_facts with (HSwap new) (HSend new); simpl; eauto; try congruence.
    + by right.
    + by repeat split.
  - (* the send on c.reconnected *)
    destruct (loop s) eqn:Hloop; try discriminate. intros [= <-].
    apply handoff_facts with (HSend new) HDone;
      simpl; auto using same_handlers_refl; try congruence.
    by right.
Qed.

(** Every step of the program has the shape [Facts] describes. *)
Lemma thread_step_facts `{Json} `{Declarations} (t : Tid) (s s' : State) :
  thread_step t s = Some s' -> Facts t s s'.
Proof.
  unfold thread_step. destruct (panicked s) eqn:Hrun; [discriminate |].
  destruct t; [by apply loop_step_facts | by apply handoff_step_facts].
Qed.

(** ** The lifecycle: connect and close *)

Lemma rtc_invariant {A} (R : relation A) (P : A -> Prop) (x y : A) :
  (forall a b, P a -> R a b -> P b) -> P x -> rtc R x y -> P y.
Proof. intros Hstep Hx Hrtc. induction Hrtc; eauto. Qed.

Lemma guard_passed_step `{Json} `{Declarations} (s s' : State) :
  guard_passed s -> step s s' -> guard_passed s'.
Proof.
  intros [Hret Hstart] [t Hstep]. apply thread_step_facts in Hstep.
  destruct Hstep. split.
  - intros Hr. destruct (F_guard0 Hr) as [Hr' | [[c Hc] Hnone]]; [done |].
    by apply (Hstart c).
  - intros c Hc. destruct (F_started0 c Hc) as [Hc' _].
    destruct F_handlers0 as (_ & -> & _). by apply (Hstart c).
Qed.

(** C7: without a Welcome handler [ConnectWithContext] returns
    [ErrNilOnWelcome] at once, with the client and the transports as they
    were (nothing was dialed); with one registered, no run of the program
    makes it return that error. *)
Theorem C7_connect_guard `{Json} `{Declarations} (ctx0 : Context) (s : State) :
  panicked s = false ->
  loop s = LStart ctx0 ->
  (onWelcome (client s) = None ->
   ConnectWithContext_prologue ctx0 s = Ok (Some ErrNilOnWelcome) s /\
   thread_step TLoop s = Some (with_loop (LReturn (Some ErrNilOnWelcome)) s)) /\
  (onWelcome (client s) <> None ->
   forall s', rtc step s s' -> loop s' <> LReturn (Some ErrNilOnWelcome)).
Proof.
  intros Hrun Hloop. split.
  - intros Hnone.
    assert (Hp : ConnectWithContext_prologue ctx0 s = Ok (Some ErrNilOnWelcome) s).
    { unfold ConnectWithContext_prologue. run_M. by rewrite Hnone. }
    split; [exact Hp |].
    unfold thread_step, loop_step. by rewrite Hrun, Hloop, Hp.
  - intros Hsome s' Hrtc.
    assert (Hg : guard_passed s).
    { split; [by rewrite Hloop | by intros _ _]. }
    apply (rtc_invariant step guard_passed s s' guard_passed_step Hg Hrtc).
Qed.

Lemma Close_not_connected (s : State) :
  connected (client s) = false ->
  Close s = Ok None (with_client (set_ws None (client s)) s).
Proof. intros Hc. unfold Close. run_M. by rewrite Hc. Qed.

Lemma clear_ws_id (s : State) :
  ws (client s) = None -> with_client (set_ws None (client s)) s = s.
Proof. destruct s as [[] ? ? ? ? ?]. simpl. by intros ->. Qed.

Lemma Close_leaves_closed (s : State) :
  connected (client (state_of (Close s))) = false /\
  ws (client (state_of (Close s))) = None.
Proof.
  unfold Close. run_M. destruct (connected (client s)) eqn:Hc; simpl; [| done].
  unfold ws_Close. simpl. destruct (ws (client s)) as [w |]; [| done].
  destruct (conns (world s) !! w) as [cn |]; [| done]. simpl.
  destruct (closeResult cn) as [e |]; [| done]. simpl.
  by destruct (CloseStatus e =? -1)%Z.
Qed.

(** C8 (as amended): on a client that is not connected [Close] returns
    [nil], touches no transport and changes nothing but the transport
    reference, which it clears (so nothing at all when the client holds no
    transport); a second [Close] in a row returns [nil] and changes
    nothing; on a connected client it marks the client not connected, closes
    the transport with the normal-closure status and clears the reference. *)
Theorem C8_close_idempotent (s : State) :
  (connected (client s) = false ->
   Close s = Ok None (with_client (set_ws None (client s)) s) /\
   (ws (client s) = None -> Close s = Ok None s)) /\
  Close (state_of (Close s)) = Ok None (state_of (Close s)) /\
  (forall w cn,
     connected (client s) = true -> ws (client s) = Some w ->
     conns (world s) !! w = Some cn ->
     let s' := state_of (Close s) in
     connected (client s') = false /\ ws (client s') = None /\
     conns (world s') = <[w := close_conn StatusNormalClosure cn]> (conns (world s)) /\
     (closed cn = None -> closed_at s' w = Some StatusNormalClosure) /\
     same_handlers (client s) (client s') /\ log s' = log s).
Proof.
  split; [| split].
  - intros Hc. split; [by apply Close_not_connected |].
    intros Hws. by rewrite Close_not_connected, clear_ws_id.
  - destruct (Close_leaves_closed s) as [Hc Hws].
    by rewrite Close_not_connected, clear_ws_id.
  - intros w cn Hc Hws Hcn. unfold Close, closed_at. run_M. rewrite Hc. simpl.
    unfold ws_Close. simpl. rewrite Hws, Hcn. simpl.
    assert (Hlt : w < length (conns (world s))) by (by eapply lookup_lt_Some).
    assert (Hgoal : forall r : option error,
      let s' := with_client
                  (set_ws None (client
                     (with_world
                        {| conns := <[w := close_conn StatusNormalClosure cn]>
                                      (conns (world s));
                           network := network (world s) |}
                        (with_client (set_connected false (client s)) s))))
                  (with_world
                     {| conns := <[w := close_conn StatusNormalClosure cn]>
                                   (conns (world s));
                        network := network (world s) |}
                     (with_client (set_connected false (client s)) s)) in
      connected (client s') = false /\ ws (client s') = None /\
      conns (world s') = <[w := close_conn StatusNormalClosure cn]> (conns (world s)) /\
      (closed cn = None ->
       match conns (world s') !! w with
       | Some cn0 => closed cn0
       | None => None
       end = Some StatusNormalClosure) /\
      same_handlers (client s) (client s') /\ log s' = log s).
    { intros _. simpl. repeat split; auto.
      rewrite list_lookup_insert_eq by done. simpl. by intros ->. }
    destruct (closeResult cn) as [e |]; simpl; [| exact (Hgoal None)].
    destruct (CloseStatus e =? -1)%Z; simpl; exact (Hgoal None).
Qed.

(** C8, the claim as stated fails: after a [Close] that raced with a
    handoff the client is not connected and holds the new transport; the
    next [Close] returns [nil] and clears the reference, a change of state,
    and leaves that transport open. *)
Lemma C8_close_changes_state :
  exists s,
    close_during_handoff = Some s /\
    connected (client s) = false /\ ws (client s) = Some 1 /\
    Close s <> Ok None s /\
    ws (client (state_of (Close s))) = None /\
    closed_at (state_of (Close s)) 1 = None.
Proof.
  eexists. split; [vm_compute; reflexivity |].
  repeat split; try reflexivity.
  intros Heq. apply (f_equal (fun r => ws (client (state_of r)))) in Heq.
  vm_compute in Heq. discriminate.
Qed.

(** ** The reconnect handoff *)

Lemma done_is_final `{Json} `{Declarations} (i : nat) (s s' : State) :
  handoffs s !! i = Some HDone -> rtc step s s' -> handoffs s' !! i = Some HDone.
Proof.
  intros Hi Hrtc.
  apply (rtc_invariant step (fun s => handoffs s !! i = Some HDone) s s'); [| done ..].
  clear. intros s s' Hi [t Hstep]. apply thread_step_facts in Hstep.
  destruct Hstep. destruct (decide (t = THandoff i)) as [-> | Hne].
  - destruct (F_own0 i eq_refl) as (h & h' & Hh & Hh' & Hpc).
    assert (h = HDone) as -> by congruence.
    destruct Hpc as [-> | []]. done.
  - by apply F_others0.
Qed.

(** C2: when the first frame read on the newly dialed transport is not a
    [session_welcome], the goroutine of [reconnect] reports to the error
    sink and ends: the client (its transport included), the loop and every
    other transport are as they were, the goroutine never runs again, so
    it never swaps; and [reconnect] itself had changed the address only. *)
Theorem C2_handoff_abort `{Json} `{Declarations} (i : nat) (new : ConnId)
    (data : bytes) (sink : callback) (s s1 : State) :
  panicked s = false ->
  handoffs s !! i = Some (HRead new) ->
  ws_Read new s = Some (inr data, s1) ->
  MessageType (parseBaseMessage data).1 <> "session_welcome" ->
  onError (client s) = Some sink ->
  (exists s' pre,
     thread_step (THandoff i) s = Some s' /\
     effects_from s s'
       (pre ++
        [Call sink
           (ArgError
              (Errorf
                 "reconnect failed: did not get a session_welcome message first: got message %s"
                 [Str (MessageType (parseBaseMessage data).1)]))]) /\
     Forall error_report pre /\
     client s' = client s /\ loop s' = loop s /\ panicked s' = false /\
     (forall w, closed_at s' w = closed_at s w) /\
     (forall w, w <> new -> conns (world s') !! w = conns (world s) !! w) /\
     handoffs s' = <[i := HDone]> (handoffs s) /\
     forall s'', rtc step s' s'' ->
       handoffs s'' !! i = Some HDone) /\
  (forall message s0,
     client (state_of (reconnect message s0)) =
       set_Address (ReconnectUrl message) (client s0)).
Proof.
  intros Hrun Hi Hread Hty Hsink. split; [| intros m s0; apply reconnect_frame].
  destruct (ws_Read_frame _ _ _ _ Hread) as (Hc & Hlog & Hl & Hho & Hp).
  destruct (ws_Read_world _ _ _ _ Hread) as (_ & _ & Hcl & Hoth & _).
  assert (Hlt : i < length (handoffs s)) by (by eapply lookup_lt_Some).
  unfold thread_step, handoff_step. rewrite Hrun, Hi, Hread.
  unfold await_welcome.
  destruct (parseBaseMessage data) as [metadata err]. simpl in Hty.
  destruct (decide (MessageType metadata = "session_welcome")) as [| _]; [done |].
  destruct err as [e |]; do 3 (run_M; rewrite ?Hc, ?Hsink; simpl); eexists _, _;
    (split; [reflexivity |]); unfold effects_from; simpl; rewrite Hlog, ?Hc, ?Hho.
  - split; [by rewrite <- app_assoc |]. split; [by repeat constructor |].
    repeat split; auto; [congruence |].
    intros s'' Hrtc. eapply done_is_final; [| exact Hrtc].
    simpl. rewrite Hho. by apply list_lookup_insert_eq.
  - split; [by instantiate (1 := []) |]. split; [constructor |].
    repeat split; auto; [congruence |].
    intros s'' Hrtc. eapply done_is_final; [| exact Hrtc].
    simpl. rewrite Hho. by apply list_lookup_insert_eq.
Qed.

Lemma handoff_inv_initial (s : State) : initial s -> handoff_inv s.
Proof.
  intros ([c Hc] & Hh & _). unfold handoff_inv, exclusive. rewrite Hh, Hc.
  repeat split; try done.
Qed.

(** A goroutine in its window at [s'] was in its own window at [s], or has
    just closed the active transport. *)
Lemma window_origin `{Json} `{Declarations} (t : Tid) (s s' : State)
    (i : nat) (n : ConnId) :
  Facts t s s' ->
  exclusive s ->
  (forall ctx0, loop s = LStart ctx0 -> handoffs s = []) ->
  handoffs s' !! i = Some (HSwap n) ->
  (handoffs s !! i = Some (HSwap n) /\ (ws (client s') = ws (client s))) \/
  (t = THandoff i /\ handoffs s !! i = Some (HClose n)).
Proof.
  intros [] Hex Hstart Hi'.
  destruct (handoffs s !! i) as [h |] eqn:Hi.
  2: { destruct (F_spawned0 i _ Hi' Hi) as [m Hm]. discriminate. }
  destruct (decide (t = THandoff i)) as [-> | Hne].
  - destruct (F_own0 i eq_refl) as (h0 & h' & Hh0 & Hh' & Hpc).
    assert (h0 = h) as -> by congruence.
    assert (h' = HSwap n) as -> by congruence.
    destruct Hpc as [<- | Hpc].
    + left. split; [done |].
      destruct (decide (ws (client s') = ws (client s))) as [| Hne]; [done |].
      destruct (F_active0 Hne) as [[[=] _] | (j & new & [= <-] & _ & Hsend & _)].
      congruence.
    + right. split; [done |]. destruct h; try done; try (by destruct Hpc).
      by injection Hpc as ->.
  - left. rewrite (F_others0 i h Hi Hne) in Hi'. injection Hi' as ->.
    split; [done |].
    destruct (decide (ws (client s') = ws (client s))) as [| Hws]; [done |].
    destruct (F_active0 Hws) as [[-> [c Hc]] | (j & new & -> & Hj & _)].
    + (* the connect step: no goroutine exists yet *)
      rewrite (Hstart c Hc) in Hi. done.
    + (* another goroutine's assignment: the windows would overlap *)
      destruct Hne. f_equal. by apply (Hex j i (HSwap new) (HSwap n)).
Qed.

Lemma handoff_inv_step `{Json} `{Declarations} (s s' : State) :
  handoff_inv s -> xstep s s' -> handoff_inv s'.
Proof.
  intros (Hex & Hstart & Hwin & Hrd) [[t Hstep] Hex'].
  apply thread_step_facts in Hstep.
  pose proof (fun i n => window_origin t s s' i n Hstep Hex Hstart) as Horigin.
  destruct Hstep. split; [exact Hex' |]. split; [| split].
  - intros c Hc. destruct (F_started0 c Hc) as [Hc0 Ht].
    destruct t as [| i]; [done |].
    destruct (F_own0 i eq_refl) as (h & _ & Hh & _).
    by rewrite (Hstart c Hc0) in Hh.
  - intros i n Hi w Hw.
    destruct (Horigin i n Hi) as [[Hi0 Hws] | [-> Hi0]].
    + apply F_closed0, (Hwin i n Hi0). congruence.
    + by apply (F_close0 i n).
  - intros w Hw. destruct (F_reading0 w Hw) as [Hw0 | [_ Hws]]; [| by left].
    destruct (Hrd w Hw0) as [Hws | Hcl]; [| right; by apply F_closed0].
    destruct (decide (ws (client s') = ws (client s))) as [Heq | Hne];
      [left; congruence |].
    right. apply F_closed0.
    destruct (F_active0 Hne) as [[_ [c Hc]] | (j & new & _ & Hj & _)];
      [congruence |].
    by apply (Hwin j new).
Qed.

Lemma handoff_inv_run `{Json} `{Declarations} (s0 s : State) :
  initial s0 -> rtc xstep s0 s -> handoff_inv s.
Proof.
  intros Hinit Hrtc.
  apply (rtc_invariant xstep handoff_inv s0 s handoff_inv_step); [| done].
  by apply handoff_inv_initial.
Qed.

(** C3 (as amended): in a run where the windows of the goroutines of
    [reconnect] do not overlap, once the loop is running the only step that
    changes the active transport is a goroutine's assignment after its
    welcome, which installs the goroutine's transport and leaves the
    transport it replaces closed; a frame the loop reads comes from the
    transport that is active when it is read, hence from the new transport
    after a swap for as long as it stays installed; and a read takes the
    frame from that one transport and from no other. *)
Theorem C3_handoff_swap `{Json} `{Declarations} (s0 s s' : State) :
  initial s0 -> rtc xstep s0 s -> xstep s s' ->
  ((forall ctx0, loop s <> LStart ctx0) ->
   ws (client s') <> ws (client s) ->
   exists i new,
     thread_step (THandoff i) s = Some s' /\
     handoffs s !! i = Some (HSwap new) /\ handoffs s' !! i = Some (HSend new) /\
     ws (client s') = Some new /\
     forall old, ws (client s) = Some old -> is_closed s' old) /\
  (forall w data s1,
     loop s = LReading w -> ws_Read w s = Some (inr data, s1) ->
     ws (client s) = Some w /\
     inbox_at s w = inr data :: inbox_at s1 w /\
     forall w', w' <> w -> inbox_at s1 w' = inbox_at s w') /\
  (forall i new s2 w data s3,
     handoffs s !! i = Some (HSwap new) ->
     thread_step (THandoff i) s = Some s' ->
     rtc xstep s' s2 -> ws (client s2) = Some new ->
     loop s2 = LReading w -> ws_Read w s2 = Some (inr data, s3) ->
     w = new).
Proof.
  intros Hinit Hrtc Hx.
  pose proof (handoff_inv_run s0 s Hinit Hrtc) as Hinv.
  assert (Hframe : forall s2, handoff_inv s2 -> forall w data s3,
            loop s2 = LReading w -> ws_Read w s2 = Some (inr data, s3) ->
            ws (client s2) = Some w).
  { intros s2 (_ & _ & _ & Hrd) w data s3 Hw Hread.
    destruct (Hrd w Hw) as [Hws | Hcl]; [done |].
    destruct (ws_Read_world _ _ _ _ Hread) as (_ & _ & _ & _ & Hopen & _).
    by destruct Hcl. }
  split; [| split].
  - intros Hrunning Hne. destruct Hinv as (_ & _ & Hwin & _).
    destruct Hx as [[t Hstep] _]. pose proof Hstep as Hfacts.
    apply thread_step_facts in Hfacts. destruct Hfacts.
    destruct (F_active0 Hne) as [[_ [c Hc]] | (i & new & -> & Hi & Hi' & Hnew)];
      [by destruct (Hrunning c) |].
    exists i, new. repeat split; auto.
    intros old Hold. by apply F_closed0, (Hwin i new).
  - intros w data s1 Hw Hread. split; [by apply (Hframe s Hinv w data s1) |].
    destruct (ws_Read_world _ _ _ _ Hread) as (_ & _ & _ & Hoth & _ & Hin).
    split; [exact Hin |]. intros w' Hne. unfold inbox_at. by rewrite Hoth.
  - intros i new s2 w data s3 _ _ Hrtc2 Hws Hw Hread.
    assert (Hinv2 : handoff_inv s2).
    { apply (rtc_invariant xstep handoff_inv s' s2 handoff_inv_step); [| done].
      by apply (handoff_inv_step s s'). }
    pose proof (Hframe s2 Hinv2 w data s3 Hw Hread). congruence.
Qed.

(** C3, the claim as stated fails when two handoffs overlap: the first
    goroutine's assignment replaces transport 2, which the second goroutine
    had installed and nobody closed, and the loop's pending [Read] then
    delivers a frame of transport 2 although transport 1 is the active
    one. *)
Lemma C3_overlapping_handoffs :
  exists s s' data s2,
    overlapping_handoffs = Some s /\
    handoffs s !! 0 = Some (HSwap 1) /\ ws (client s) = Some 2 /\
    thread_step (THandoff 0) s = Some s' /\
    ws (client s') = Some 1 /\
    closed_at s' 2 = None /\
    loop s' = LReading 2 /\
    ws_Read 2 s' = Some (inr data, s2).
Proof.
  eexists _, _, _, _. split; [vm_compute; reflexivity |].
  repeat split; vm_compute; reflexivity.
Qed.

(** ** Runs that compute *)

Lemma windows_lookup (hs : list Handoff) (i : nat) (h : Handoff) :
  hs !! i = Some h -> in_window h -> 1 <= windows hs.
Proof.
  revert i. induction hs as [| h0 hs IH]; intros i Hi Hw; [done |].
  destruct i as [| i]; simpl in *.
  - injection Hi as ->. destruct h; try done. simpl. lia.
  - specialize (IH i Hi Hw). lia.
Qed.

Lemma exclusiveb_sound (s : State) : exclusiveb s = true -> exclusive s.
Proof.
  unfold exclusiveb, exclusive. intros Hb. apply bool_decide_eq_true in Hb.
  revert Hb. generalize (handoffs s). clear s.
  induction l as [| h0 hs IH]; intros Hle i j hi hj Hi Hj Hwi Hwj; [done |].
  simpl in Hle.
  destruct i as [| i], j as [| j]; simpl in *; [done | | |].
  - injection Hi as ->. pose proof (windows_lookup hs j hj Hj Hwj).
    destruct hi; try done. simpl in Hle. lia.
  - injection Hj as ->. pose proof (windows_lookup hs i hi Hi Hwi).
    destruct hj; try done. simpl in Hle. lia.
  - f_equal. apply (IH ltac:(lia) i j hi hj); done.
Qed.

Lemma xrun_rtc `{Json} `{Declarations} (sched : list Tid) (s s' : State) :
  xrun sched s = Some s' -> rtc xstep s s'.
Proof.
  revert s. induction sched as [| t sched IH]; intros s; simpl.
  - intros [= ->]. constructor.
  - destruct (thread_step t s) as [s1 |] eqn:Hstep; [| done].
    destruct (exclusiveb s1) eqn:Hex; [| done]. intros Hrun.
    apply rtc_l with s1; [| by apply IH].
    split; [by exists t | by apply exclusiveb_sound].
Qed.

Lemma xrun_xstep `{Json} `{Declarations} (t : Tid) (s s' : State) :
  xrun [t] s = Some s' -> xstep s s'.
Proof.
  simpl. destruct (thread_step t s) as [s1 |] eqn:Hstep; [| done].
  destruct (exclusiveb s1) eqn:Hex; [| done]. intros [= <-].
  split; [by exists t | by apply exclusiveb_sound].
Qed.

(** ** The theorems at the sample inputs *)

Lemma C1_witness :
  let data := frame "notification:channel.update" in
  let message := PtrNotificationMessage (sample_notification "channel.update") in
  parseBaseMessage data = (sample_metadata data, None) /\
  messageTypeMap !! MessageType (sample_metadata data)
    = Some (zeroPtrGen TNotificationMessage) /\
  json_Unmarshal data (zeroPtrGen TNotificationMessage tt) = inr message /\
  exists rest,
    effects_from idle_state (state_of (handleMessage data idle_state))
      (invocation_of (client idle_state) message ++ rest) /\
    Forall (fun e => ~ message_level e) rest /\
    state_of (handleMessage data idle_state) =
      state_of (handleNotification (sample_notification "channel.update")
                  (with_log (log idle_state ++
                             invocation_of (client idle_state) message) idle_state)).
Proof.
  intros data message.
  assert (Hp : parseBaseMessage data = (sample_metadata data, None))
    by reflexivity.
  assert (Hl : messageTypeMap !! MessageType (sample_metadata data)
               = Some (zeroPtrGen TNotificationMessage)) by reflexivity.
  assert (Hd : json_Unmarshal data (zeroPtrGen TNotificationMessage tt) = inr message)
    by reflexivity.
  split; [exact Hp | split; [exact Hl | split; [exact Hd |]]].
  exact (C1_known_discriminant_dispatch data (sample_metadata data)
           (zeroPtrGen TNotificationMessage) message idle_state Hp Hl Hd).
Defined.

Lemma C2_witness :
  let s := handoff_state ["session_keepalive"] in
  let data := frame "session_keepalive" in
  panicked s = false /\
  handoffs s !! 0 = Some (HRead 1) /\
  ws_Read 1 s = Some (inr data, handoff_state []) /\
  MessageType (parseBaseMessage data).1 <> "session_welcome" /\
  onError (client s) = Some 1 /\
  exists s',
    thread_step (THandoff 0) s = Some s' /\
    client s' = client s /\ handoffs s' = [HDone] /\
    log s' =
      [Call 1
         (ArgError
            (Errorf
               "reconnect failed: did not get a session_welcome message first: got message %s"
               [Str "session_keepalive"]))].
Proof.
  intros s data.
  assert (H1 : panicked s = false) by reflexivity.
  assert (H2 : handoffs s !! 0 = Some (HRead 1)) by reflexivity.
  assert (H3 : ws_Read 1 s = Some (inr data, handoff_state [])) by reflexivity.
  assert (H4 : MessageType (parseBaseMessage data).1 <> "session_welcome")
    by (vm_compute; discriminate).
  assert (H5 : onError (client s) = Some 1) by reflexivity.
  repeat (split; [assumption |]).
  destruct (C2_handoff_abort 0 1 data 1 s (handoff_state []) H1 H2 H3 H4 H5)
    as [(s' & pre & Hstep & Hlog & _ & Hc & _ & _ & _ & _ & Hh & _) _].
  exists s'. split; [exact Hstep |]. split; [exact Hc |]. split; [exact Hh |].
  vm_compute in Hstep. injection Hstep as <-. reflexivity.
Defined.

Lemma C3_witness :
  initial one_handoff_start /\
  xrun one_handoff one_handoff_start = Some before_swap /\
  xrun [THandoff 0] before_swap = Some after_swap /\
  ws (client before_swap) = Some 0 /\ ws (client after_swap) = Some 1 /\
  is_closed after_swap 0.
Proof.
  assert (Hinit : initial one_handoff_start).
  { split; [by exists Background |]. by split. }
  assert (Hs : xrun one_handoff one_handoff_start = Some before_swap)
    by (vm_compute; reflexivity).
  assert (Hs' : xrun [THandoff 0] before_swap = Some after_swap)
    by (vm_compute; reflexivity).
  assert (Hws : ws (client before_swap) = Some 0) by (vm_compute; reflexivity).
  assert (Hws' : ws (client after_swap) = Some 1) by (vm_compute; reflexivity).
  repeat (split; [assumption |]).
  destruct (C3_handoff_swap one_handoff_start before_swap after_swap Hinit
              (xrun_rtc _ _ _ Hs) (xrun_xstep _ _ _ Hs')) as (Hswap & _ & _).
  destruct Hswap as (i & new & _ & _ & _ & _ & Hclosed).
  - intros c. vm_compute. discriminate.
  - rewrite Hws, Hws'. discriminate.
  - by apply Hclosed.
Defined.

Lemma C4_witness :
  let message := sample_notification "channel.update" in
  let metadata := {| EventGen := Some (zeroPtrGen (TEvent EventChannelUpdate)) |} in
  Event_MarshalJSON (Payload_Event message) = inr (frame "{}") /\
  subMetadata !! Subscription_Type (Payload_Subscription message) = Some metadata /\
  onRawEvent (client idle_state) = Some 7 /\
  effects_from idle_state (state_of (handleNotification message idle_state))
    [Call 7 (ArgRawEvent "{}" (Notification_Metadata message)
                         (Payload_Subscription message));
     Go 8 (ArgEvent EventChannelUpdate [("event", "{}")])].
Proof.
  intros message metadata.
  assert (H1 : Event_MarshalJSON (Payload_Event message) = inr (frame "{}"))
    by reflexivity.
  assert (H2 : subMetadata !! Subscription_Type (Payload_Subscription message)
               = Some metadata) by (vm_compute; reflexivity).
  assert (H3 : onRawEvent (client idle_state) = Some 7) by reflexivity.
  repeat (split; [assumption |]).
  destruct (C4_raw_hook_with_entry message (frame "{}") metadata 7 idle_state H1 H2 H3)
    as (rest & Hlog & _ & Htyped).
  destruct (Htyped _ eq_refl) as [-> _]. exact Hlog.
Defined.

Lemma C5_witness :
  let s := reading_state ["bogus"] in
  let data := frame "bogus" in
  panicked s = false /\ loop s = LReading 0 /\
  ws_Read 0 s = Some (inr data, reading_state []) /\
  parseBaseMessage data = (sample_metadata data, None) /\
  messageTypeMap !! MessageType (sample_metadata data) = None /\
  onError (client s) = Some 1 /\
  thread_step TLoop s =
    Some (with_loop LRead
            (with_log [Call 1 (ArgError (Errorf "unknown message type %s: %s"
                                           [Str "bogus"; Str "bogus"]))]
                      (reading_state []))).
Proof.
  intros s data.
  assert (H1 : panicked s = false) by reflexivity.
  assert (H2 : loop s = LReading 0) by reflexivity.
  assert (H3 : ws_Read 0 s = Some (inr data, reading_state [])) by reflexivity.
  assert (H4 : parseBaseMessage data = (sample_metadata data, None)) by reflexivity.
  assert (H5 : messageTypeMap !! MessageType (sample_metadata data) = None)
    by (vm_compute; reflexivity).
  assert (H6 : onError (client s) = Some 1) by reflexivity.
  repeat (split; [assumption |]).
  exact (C5_unknown_discriminant s (reading_state []) 0 data (sample_metadata data) 1
           H1 H2 H3 H4 H5 H6).
Defined.

Lemma C6_witness :
  let data := frame "notification:channel.nope" in
  let m := sample_notification "channel.nope" in
  parseBaseMessage data = (sample_metadata data, None) /\
  messageTypeMap !! MessageType (sample_metadata data)
    = Some (zeroPtrGen TNotificationMessage) /\
  json_Unmarshal data (zeroPtrGen TNotificationMessage tt)
    = inr (PtrNotificationMessage m) /\
  Event_MarshalJSON (Payload_Event m) = inr (frame "{}") /\
  subMetadata !! Subscription_Type (Payload_Subscription m) = None /\
  onError (client idle_state) = Some 1 /\
  dispatch data idle_state =
    Ok tt (with_log
             [Go 4 (ArgNotification m);
              Call 1 (ArgError (ErrorfW "could not handle notification: %w" []
                                  (Errorf "unknown subscription type %s"
                                          [Str "channel.nope"])))]
             idle_state).
Proof.
  intros data m.
  assert (H1 : parseBaseMessage data = (sample_metadata data, None)) by reflexivity.
  assert (H2 : messageTypeMap !! MessageType (sample_metadata data)
               = Some (zeroPtrGen TNotificationMessage)) by reflexivity.
  assert (H3 : json_Unmarshal data (zeroPtrGen TNotificationMessage tt)
               = inr (PtrNotificationMessage m)) by reflexivity.
  assert (H4 : Event_MarshalJSON (Payload_Event m) = inr (frame "{}")) by reflexivity.
  assert (H5 : subMetadata !! Subscription_Type (Payload_Subscription m) = None)
    by (vm_compute; reflexivity).
  assert (H6 : onError (client idle_state) = Some 1) by reflexivity.
  repeat (split; [assumption |]).
  exact (proj1 (proj2 (C6_unknown_subscription_type data (frame "{}")
                         (sample_metadata data) (zeroPtrGen TNotificationMessage) m 1
                         idle_state H1 H2 H3 H4 H5 H6))).
Defined.

Lemma C7_witness :
  let s := start NewClient [] [] in
  panicked s = false /\ loop s = LStart Background /\
  onWelcome (client s) = None /\
  thread_step TLoop s = Some (with_loop (LReturn (Some ErrNilOnWelcome)) s) /\
  let s2 := start (OnWelcome (Some 2) NewClient) [] [] in
  onWelcome (client s2) <> None /\
  forall s', rtc step s2 s' -> loop s' <> LReturn (Some ErrNilOnWelcome).
Proof.
  intros s.
  assert (H1 : panicked s = false) by reflexivity.
  assert (H2 : loop s = LStart Background) by reflexivity.
  assert (H3 : onWelcome (client s) = None) by reflexivity.
  assert (H4 : onWelcome (client (start (OnWelcome (Some 2) NewClient) [] [])) <> None)
    by (simpl; discriminate).
  split; [exact H1 |]. split; [exact H2 |]. split; [exact H3 |].
  split; [exact (proj2 (proj1 (C7_connect_guard Background s H1 H2) H3)) |].
  split; [exact H4 |].
  exact (proj2 (C7_connect_guard Background (start (OnWelcome (Some 2) NewClient) [] [])
                  eq_refl eq_refl) H4).
Defined.

Lemma C8_witness :
  let s := reading_state [] in
  connected (client s) = true /\ ws (client s) = Some 0 /\
  conns (world s) !! 0 = Some (open_conn []) /\
  connected (client (state_of (Close s))) = false /\
  ws (client (state_of (Close s))) = None /\
  closed_at (state_of (Close s)) 0 = Some StatusNormalClosure /\
  Close (state_of (Close s)) = Ok None (state_of (Close s)).
Proof.
  intros s.
  assert (H1 : connected (client s) = true) by reflexivity.
  assert (H2 : ws (client s) = Some 0) by reflexivity.
  assert (H3 : conns (world s) !! 0 = Some (open_conn [])) by reflexivity.
  repeat (split; [assumption |]).
  destruct (C8_close_idempotent s) as (_ & Htwice & Hconn).
  destruct (Hconn 0 (open_conn []) H1 H2 H3) as (Hc & Hw & _ & Hcl & _).
  split; [exact Hc |]. split; [exact Hw |]. split; [exact (Hcl eq_refl) |].
  exact Htwice.
Defined.

Lemma C9_witness :
  is_message (zeroPtrGen TReconnectMessage tt) /\
  value_of (handleMessage (frame "revocation") idle_state)
    <> Some (Some (Errorf "unhandled %T message: %v" [])).
Proof.
  split.
  - exact (proj1 C9_default_branch_unreachable "session_reconnect"
             (zeroPtrGen TReconnectMessage) eq_refl).
  - exact (proj2 C9_default_branch_unreachable (frame "revocation") idle_state []).
Defined.

Lemma C10_witness :
  let message := sample_notification "channel.raid" in
  let gen := zeroPtrGen (TEvent EventChannelRaid) in
  Event_MarshalJSON (Payload_Event message) = inr (frame "{}") /\
  subMetadata !! Subscription_Type (Payload_Subscription message)
    = Some {| EventGen := Some gen |} /\
  onRawEvent (client idle_state) = Some 7 /\
  json_Unmarshal (frame "{}") (gen tt) = inl syntaxError /\
  handleNotification message idle_state =
    Ok (Some (ErrorfW "could not unmarshal %s into %T: %w"
                [Str "channel.raid"; TypeOf (gen tt)] (LibError syntaxError)))
       (with_log [Call 7 (ArgRawEvent "{}" (Notification_Metadata message)
                                      (Payload_Subscription message))]
                 idle_state).
Proof.
  intros message gen.
  assert (H1 : Event_MarshalJSON (Payload_Event message) = inr (frame "{}"))
    by reflexivity.
  assert (H2 : subMetadata !! Subscription_Type (Payload_Subscription message)
               = Some {| EventGen := Some gen |}) by (vm_compute; reflexivity).
  assert (H3 : onRawEvent (client idle_state) = Some 7) by reflexivity.
  assert (H4 : json_Unmarshal (frame "{}") (gen tt) = inl syntaxError) by reflexivity.
  repeat (split; [assumption |]).
  exact (C10_raw_hook_before_decode message (frame "{}") {| EventGen := Some gen |}
           gen syntaxError 7 idle_state H1 H2 H3 eq_refl H4).
Defined.

(** C4, the claim as stated fails: a notification whose subscription type
    has no entry in [subMetadata] is handed to the router while the raw hook
    is registered, and the router returns without calling it. *)
Lemma C4_no_entry_no_raw_hook :
  let message := sample_notification "channel.nope" in
  onRawEvent (client idle_state) = Some 7 /\
  subMetadata !! Subscription_Type (Payload_Subscription message) = None /\
  handleNotification message idle_state =
    Ok (Some (Errorf "unknown subscription type %s" [Str "channel.nope"])) idle_state /\
  log (state_of (handleNotification message idle_state)) = [].
Proof.
  intros message. split; [reflexivity |]. split; [vm_compute; reflexivity |].
  split; reflexivity.
Qed.

(** * Further properties of [conn.go] *)

(** ** Errors of a single frame *)

(** X1: a frame whose envelope does not decode makes the loop report the
    decode error once to the error sink and go back to its [Read]; no
    handler is invoked and nothing else changes. *)
Theorem X1_envelope_decode_error `{Json} `{Declarations} (s s1 : State) (w : ConnId)
    (data : bytes) (err : liberror) (sink : callback) :
  panicked s = false ->
  loop s = LReading w ->
  ws_Read w s = Some (inr data, s1) ->
  unmarshal_BaseMessage data = inl err ->
  onError (client s) = Some sink ->
  thread_step TLoop s =
    Some (with_loop LRead
            (with_log
               (log s1 ++
                [Call sink
                   (ArgError
                      (ErrorfW "could not unmarshal basemessage to get message type: %w"
                               [] (LibError err)))]) s1)).
Proof.
  intros Hrun Hloop Hread Hdec Hsink.
  destruct (ws_Read_frame _ _ _ _ Hread) as (Hc & _).
  unfold thread_step, loop_step. rewrite Hrun, Hloop, Hread.
  unfold dispatch, handleMessage, parseBaseMessage. rewrite Hdec. run_M.
  by rewrite Hc, Hsink.
Qed.

Lemma X1_witness :
  let s := reading_state [""] in
  panicked s = false /\ loop s = LReading 0 /\
  ws_Read 0 s = Some (inr [], reading_state []) /\
  unmarshal_BaseMessage [] = inl syntaxError /\
  onError (client s) = Some 1 /\
  thread_step TLoop s =
    Some (with_loop LRead
            (with_log
               [Call 1
                  (ArgError
                     (ErrorfW "could not unmarshal basemessage to get message type: %w"
                              [] (LibError syntaxError)))]
               (reading_state []))).
Proof.
  intros s.
  assert (H1 : panicked s = false) by reflexivity.
  assert (H2 : loop s = LReading 0) by reflexivity.
  assert (H3 : ws_Read 0 s = Some (inr [], reading_state [])) by reflexivity.
  assert (H4 : unmarshal_BaseMessage [] = inl syntaxError) by reflexivity.
  assert (H5 : onError (client s) = Some 1) by reflexivity.
  repeat (split; [assumption |]).
  exact (X1_envelope_decode_error s (reading_state []) 0 [] syntaxError 1
           H1 H2 H3 H4 H5).
Defined.

(** X2: a frame with a known discriminant whose body does not decode into
    the variant makes [handleMessage] return the decode error, wrapped with
    the message type, without invoking a handler or changing the state; the
    loop body reports it once. *)
Theorem X2_body_decode_error `{Json} `{Declarations} (data : bytes)
    (metadata : MessageMetadata) (gen : unit -> any) (err : liberror)
    (sink : callback) (s : State) :
  parseBaseMessage data = (metadata, None) ->
  messageTypeMap !! MessageType metadata = Some gen ->
  json_Unmarshal data (gen tt) = inl err ->
  onError (client s) = Some sink ->
  let e := ErrorfW "could not unmarshal message into %s: %w"
                   [Str (MessageType metadata)] (LibError err) in
  handleMessage data s = Ok (Some e) s /\
  dispatch data s = Ok tt (with_log (log s ++ [Call sink (ArgError e)]) s).
Proof.
  intros Hp Hl Hdec Hsink e.
  assert (Hm : handleMessage data s = Ok (Some e) s).
  { unfold handleMessage. by rewrite Hp, Hl, Hdec. }
  split; [exact Hm |]. unfold dispatch. rewrite bind_run, Hm. run_M.
  by rewrite Hsink.
Qed.

Lemma X2_witness :
  let data := frame "session_welcome" in
  let e := ErrorfW "could not unmarshal message into %s: %w"
                   [Str "session_welcome"] (LibError syntaxError) in
  @parseBaseMessage strict_Json data = (sample_metadata data, None) /\
  messageTypeMap !! MessageType (sample_metadata data)
    = Some (zeroPtrGen TWelcomeMessage) /\
  @json_Unmarshal strict_Json data (zeroPtrGen TWelcomeMessage tt) = inl syntaxError /\
  onError (client idle_state) = Some 1 /\
  @handleMessage strict_Json sample_Declarations data idle_state
    = Ok (Some e) idle_state /\
  @dispatch strict_Json sample_Declarations data idle_state
    = Ok tt (with_log [Call 1 (ArgError e)] idle_state).
Proof.
  intros data e.
  assert (H1 : @parseBaseMessage strict_Json data = (sample_metadata data, None))
    by reflexivity.
  assert (H2 : messageTypeMap !! MessageType (sample_metadata data)
               = Some (zeroPtrGen TWelcomeMessage)) by reflexivity.
  assert (H3 : @json_Unmarshal strict_Json data (zeroPtrGen TWelcomeMessage tt)
               = inl syntaxError) by reflexivity.
  assert (H4 : onError (client idle_state) = Some 1) by reflexivity.
  repeat (split; [assumption |]).
  exact (@X2_body_decode_error strict_Json sample_Declarations data
           (sample_metadata data) (zeroPtrGen TWelcomeMessage) syntaxError 1
           idle_state H1 H2 H3 H4).
Defined.

(** ** The Notification Router *)

(** X3: an entry of [subMetadata] without [EventGen] makes the router call
    the raw hook (when registered), report "unknown event type" to the
    error sink itself and return [nil]: the caller sees no error. *)
Theorem X3_entry_without_target `{Json} `{Declarations}
    (message : NotificationMessage) (data : bytes)
    (metadata : subscriptionMetadata) (sink : callback) (s : State) :
  Event_MarshalJSON (Payload_Event message) = inr data ->
  subMetadata !! Subscription_Type (Payload_Subscription message) = Some metadata ->
  EventGen metadata = None ->
  onError (client s) = Some sink ->
  handleNotification message s =
    Ok None
       (with_log
          (log s ++ raw_hook_calls (client s) message data ++
           [Call sink
              (ArgError (Errorf "unknown event type %s"
                           [Str (Subscription_Type (Payload_Subscription message))]))])
          s).
Proof.
  intros Hm Hl Hgen Hsink. unfold handleNotification, raw_hook_calls.
  rewrite Hm, Hl, Hgen. run_M.
  destruct (onRawEvent (client s)); simpl; rewrite Hsink; simpl;
    [by rewrite <- app_assoc | reflexivity].
Qed.

Lemma X3_witness :
  let message := sample_notification "channel.untyped" in
  Event_MarshalJSON (Payload_Event message) = inr (frame "{}") /\
  subMetadata !! Subscription_Type (Payload_Subscription message)
    = Some {| EventGen := None |} /\
  onError (client idle_state) = Some 1 /\
  handleNotification message idle_state =
    Ok None
       (with_log
          [Call 7 (ArgRawEvent "{}" (Notification_Metadata message)
                               (Payload_Subscription message));
           Call 1 (ArgError (Errorf "unknown event type %s" [Str "channel.untyped"]))]
          idle_state).
Proof.
  intros message.
  assert (H1 : Event_MarshalJSON (Payload_Event message) = inr (frame "{}"))
    by reflexivity.
  assert (H2 : subMetadata !! Subscription_Type (Payload_Subscription message)
               = Some {| EventGen := None |}) by (vm_compute; reflexivity).
  assert (H3 : onError (client idle_state) = Some 1) by reflexivity.
  repeat (split; [assumption |]).
  exact (X3_entry_without_target message (frame "{}") {| EventGen := None |} 1
           idle_state H1 H2 eq_refl H3).
Defined.

(** X4: whatever error the router returns, [handleMessage] has invoked the
    notification handler before, returns the error wrapped as "could not
    handle notification", and the loop body reports exactly that to the
    error sink when the router is done. *)
Theorem X4_router_error_reported `{Json} `{Declarations} (data : bytes)
    (metadata : MessageMetadata) (gen : unit -> any) (m : NotificationMessage)
    (e : error) (sink : callback) (s s2 : State) :
  parseBaseMessage data = (metadata, None) ->
  messageTypeMap !! MessageType metadata = Some gen ->
  json_Unmarshal data (gen tt) = inr (PtrNotificationMessage m) ->
  handleNotification m
    (with_log (log s ++ invocation (onNotification (client s)) (ArgNotification m)) s)
    = Ok (Some e) s2 ->
  onError (client s) = Some sink ->
  dispatch data s =
    Ok tt (with_log
             (log s2 ++
              [Call sink (ArgError (ErrorfW "could not handle notification: %w" [] e))])
             s2).
Proof.
  intros Hp Hl Hdec Hrouter Hsink. unfold dispatch. rewrite bind_run.
  rewrite (handleMessage_decoded data metadata gen _ s Hp Hl Hdec).
  cbn [invocation_of message_arg handler_of]. rewrite Hrouter.
  pose proof (handleNotification_only_logs m
    (with_log (log s ++ invocation (onNotification (client s)) (ArgNotification m)) s))
    as Honly.
  rewrite Hrouter in Honly. simpl in Honly. run_M.
  rewrite Honly. simpl. by rewrite Hsink.
Qed.

Lemma X4_witness :
  let data := frame "notification:channel.raid" in
  let m := sample_notification "channel.raid" in
  let e := ErrorfW "could not unmarshal %s into %T: %w"
             [Str "channel.raid"; TypeOf (zeroPtrGen (TEvent EventChannelRaid) tt)]
             (LibError syntaxError) in
  let s2 := with_log
              [Go 4 (ArgNotification m);
               Call 7 (ArgRawEvent "{}" (Notification_Metadata m)
                                   (Payload_Subscription m))] idle_state in
  parseBaseMessage data = (sample_metadata data, None) /\
  messageTypeMap !! MessageType (sample_metadata data)
    = Some (zeroPtrGen TNotificationMessage) /\
  json_Unmarshal data (zeroPtrGen TNotificationMessage tt)
    = inr (PtrNotificationMessage m) /\
  handleNotification m
    (with_log (log idle_state ++
               invocation (onNotification (client idle_state)) (ArgNotification m))
              idle_state) = Ok (Some e) s2 /\
  onError (client idle_state) = Some 1 /\
  dispatch data idle_state =
    Ok tt (with_log
             (log s2 ++
              [Call 1 (ArgError (ErrorfW "could not handle notification: %w" [] e))])
             s2).
Proof.
  intros data m e s2.
  assert (H1 : parseBaseMessage data = (sample_metadata data, None)) by reflexivity.
  assert (H2 : messageTypeMap !! MessageType (sample_metadata data)
               = Some (zeroPtrGen TNotificationMessage)) by reflexivity.
  assert (H3 : json_Unmarshal data (zeroPtrGen TNotificationMessage tt)
               = inr (PtrNotificationMessage m)) by reflexivity.
  assert (H4 : handleNotification m
            (with_log (log idle_state ++
                       invocation (onNotification (client idle_state))
                                  (ArgNotification m)) idle_state) = Ok (Some e) s2)
    by (vm_compute; reflexivity).
  assert (H5 : onError (client idle_state) = Some 1) by reflexivity.
  repeat (split; [assumption |]).
  exact (X4_router_error_reported data (sample_metadata data)
           (zeroPtrGen TNotificationMessage) m e 1 idle_state s2 H1 H2 H3 H4 H5).
Defined.

(** ** The registration surface *)

(** X5: a typed event reaches the handler last registered for its event
    struct type, after the raw hook, and registering a handler for another
    type changes nothing for this one; with no handler registered the event
    is dropped without an error. *)
Theorem X5_event_registration `{Json} `{Declarations}
    (message : NotificationMessage) (data : bytes)
    (metadata : subscriptionMetadata) (gen : unit -> any) (k k' : EventKind)
    (event : Fields) (f : option callback) (s : State) :
  Event_MarshalJSON (Payload_Event message) = inr data ->
  subMetadata !! Subscription_Type (Payload_Subscription message) = Some metadata ->
  EventGen metadata = Some gen ->
  json_Unmarshal data (gen tt) = inr (PtrEvent k event) ->
  let registered c := with_client c s in
  handleNotification message (registered (OnEvent k f (client s))) =
    Ok None
       (with_log (log s ++ raw_hook_calls (client s) message data ++
                  invocation f (ArgEvent k event))
                 (registered (OnEvent k f (client s)))) /\
  (k' <> k ->
   handleNotification message (registered (OnEvent k' f (client s))) =
     Ok None
        (with_log (log s ++ raw_hook_calls (client s) message data ++
                   invocation (onEvent (client s) k) (ArgEvent k event))
                  (registered (OnEvent k' f (client s))))).
Proof.
  intros Hm Hl Hgen Hdec registered.
  assert (Hgo : forall c,
    onRawEvent c = onRawEvent (client s) ->
    handleNotification message (registered c) =
      Ok None (with_log (log s ++ raw_hook_calls (client s) message data ++
                         invocation (onEvent c k) (ArgEvent k event))
                        (registered c))).
  { intros c Hraw. unfold handleNotification, raw_hook_calls.
    rewrite Hm, Hl, Hgen, Hdec. run_M. rewrite Hraw.
    destruct (onRawEvent (client s)); simpl; destruct (onEvent c k); simpl;
      by rewrite <- ?app_assoc, ?app_nil_r. }
  split.
  - rewrite (Hgo (OnEvent k f (client s))) by reflexivity. simpl.
    by rewrite decide_True.
  - intros Hne. rewrite (Hgo (OnEvent k' f (client s))) by reflexivity. simpl.
    by rewrite decide_False.
Qed.

Lemma X5_witness :
  let message := sample_notification "channel.update" in
  let c := OnEvent EventChannelUpdate (Some 9) sample_client in
  Event_MarshalJSON (Payload_Event message) = inr (frame "{}") /\
  subMetadata !! Subscription_Type (Payload_Subscription message)
    = Some {| EventGen := Some (zeroPtrGen (TEvent EventChannelUpdate)) |} /\
  json_Unmarshal (frame "{}") (zeroPtrGen (TEvent EventChannelUpdate) tt)
    = inr (PtrEvent EventChannelUpdate [("event", "{}")]) /\
  handleNotification message (with_client c idle_state) =
    Ok None
       (with_log
          [Call 7 (ArgRawEvent "{}" (Notification_Metadata message)
                               (Payload_Subscription message));
           Go 9 (ArgEvent EventChannelUpdate [("event", "{}")])]
          (with_client c idle_state)).
Proof.
  intros message c.
  assert (H1 : Event_MarshalJSON (Payload_Event message) = inr (frame "{}"))
    by reflexivity.
  assert (H2 : subMetadata !! Subscription_Type (Payload_Subscription message)
               = Some {| EventGen := Some (zeroPtrGen (TEvent EventChannelUpdate)) |})
    by (vm_compute; reflexivity).
  assert (H3 : json_Unmarshal (frame "{}") (zeroPtrGen (TEvent EventChannelUpdate) tt)
               = inr (PtrEvent EventChannelUpdate [("event", "{}")])) by reflexivity.
  repeat (split; [assumption |]).
  exact (proj1 (X5_event_registration message (frame "{}")
                  {| EventGen := Some (zeroPtrGen (TEvent EventChannelUpdate)) |}
                  (zeroPtrGen (TEvent EventChannelUpdate)) EventChannelUpdate
                  EventChannelRaid [("event", "{}")] (Some 9) idle_state
                  H1 H2 eq_refl H3)).
Defined.

(** X6: the error sink is called without a nil check: once it has been
    cleared with [OnError(nil)], a frame for which [handleMessage] returns
    an error makes the loop body panic instead of reporting. *)
Theorem X6_cleared_sink_panics `{Json} `{Declarations} (data : bytes) (e : error)
    (s s2 : State) :
  handleMessage data (with_client (OnError None (client s)) s) = Ok (Some e) s2 ->
  dispatch data (with_client (OnError None (client s)) s) = Panic s2.
Proof.
  intros Hm. unfold dispatch. rewrite bind_run, Hm.
  pose proof (handleMessage_frame data (with_client (OnError None (client s)) s))
    as (Hsame & _).
  rewrite Hm in Hsame. simpl in Hsame.
  apply same_but_Address_handlers in Hsame. destruct Hsame as (Herr & _).
  simpl in Herr. run_M. by rewrite Herr.
Qed.

Lemma X6_witness :
  let s := with_client (OnError None (client idle_state)) idle_state in
  let e := Errorf "unknown message type %s: %s" [Str "bogus"; Str "bogus"] in
  handleMessage (frame "bogus") s = Ok (Some e) s /\
  dispatch (frame "bogus") s = Panic s.
Proof.
  intros s e.
  assert (H1 : handleMessage (frame "bogus") s = Ok (Some e) s)
    by (vm_compute; reflexivity).
  split; [exact H1 |].
  exact (X6_cleared_sink_panics (frame "bogus") e idle_state s H1).
Defined.

(** ** Connect and close *)

(** X7: with a Welcome handler registered, [ConnectWithContext] stores the
    context and dials the client's address.  When the dial fails it returns
    the dial error wrapped with the address, and the context is the only
    thing it has changed; when the dial succeeds the new transport becomes
    the active one, the client is marked connected and the loop starts. *)
Theorem X7_connect_dial (ctx0 : Context) (s : State) :
  onWelcome (client s) <> None ->
  match network (world s) (Address (client s)) with
  | inl err =>
      ConnectWithContext_prologue ctx0 s =
        Ok (Some (ErrorfW "could not dial %s: %w" [Str (Address (client s))]
                          (LibError err)))
           (with_client (set_ctx (Some ctx0) (client s)) s)
  | inr cn =>
      ConnectWithContext_prologue ctx0 s =
        Ok None
           (with_client
              (set_connected true
                 (set_ws (Some (length (conns (world s))))
                    (set_ctx (Some ctx0) (client s))))
              (with_world {| conns := conns (world s) ++ [cn];
                             network := network (world s) |} s))
  end.
Proof.
  intros Hw. unfold ConnectWithContext_prologue. run_M.
  destruct (onWelcome (client s)); [| done]. unfold dial. simpl.
  by destruct (network (world s) (Address (client s))).
Qed.

Lemma X7_witness :
  let s := start (set_Address "wss://nowhere" sample_client) [] [] in
  onWelcome (client s) <> None /\
  ConnectWithContext_prologue Background s =
    Ok (Some (ErrorfW "could not dial %s: %w" [Str "wss://nowhere"]
                      (LibError dialError)))
       (with_client (set_ctx (Some Background) (client s)) s).
Proof.
  intros s.
  assert (H1 : onWelcome (client s) <> None) by (simpl; discriminate).
  split; [exact H1 |].
  exact (X7_connect_dial Background s H1).
Defined.

(** X8: on a connected client [Close] returns [nil] when the transport's
    [Close] succeeds or fails with a [websocket.CloseError], and the
    transport's error, wrapped, when it fails with anything else; in every
    case the client ends up not connected and without a transport. *)
Theorem X8_close_result (s : State) (w : ConnId) (cn : Conn) :
  connected (client s) = true ->
  ws (client s) = Some w ->
  conns (world s) !! w = Some cn ->
  value_of (Close s) =
    Some match closeResult cn with
         | Some e =>
             if (CloseStatus e =? -1)%Z
             then Some (ErrorfW "could not close websocket connection: %w" []
                                (LibError e))
             else None
         | None => None
         end /\
  lifecycle (client (state_of (Close s))) =
    (None, false, ctx (client s), reconnecting (client s)).
Proof.
  intros Hc Hws Hcn. unfold Close, lifecycle. run_M. rewrite Hc. simpl.
  unfold ws_Close. simpl. rewrite Hws, Hcn. simpl.
  destruct (closeResult cn) as [e |]; simpl; [| done].
  by destruct (CloseStatus e =? -1)%Z.
Qed.

Lemma X8_witness :
  let s := reading_state [] in
  connected (client s) = true /\ ws (client s) = Some 0 /\
  conns (world s) !! 0 = Some (open_conn []) /\
  value_of (Close s) = Some None.
Proof.
  intros s. repeat (split; [reflexivity |]).
  exact (proj1 (X8_close_result s 0 (open_conn []) eq_refl eq_refl eq_refl)).
Defined.

(** X9: [Close] called while the loop is inside [Read] on the active, open
    transport, with no handoff under way, makes that [Read] fail with the
    normal-closure status and [ConnectWithContext] return [nil]. *)
Theorem X9_close_ends_loop `{Json} `{Declarations} (s : State) (w : ConnId)
    (cn : Conn) :
  panicked s = false ->
  loop s = LReading w ->
  ws (client s) = Some w ->
  connected (client s) = true ->
  reconnecting (client s) = false ->
  conns (world s) !! w = Some cn ->
  closed cn = None ->
  let s1 := state_of (Close s) in
  ws_Read w s1 = Some (inl (closedError StatusNormalClosure), s1) /\
  thread_step TLoop s1 = Some (with_loop (LReturn None) s1).
Proof.
  intros Hrun Hloop Hws Hc Hrec Hcn Hopen s1.
  assert (Hlt : w < length (conns (world s))) by (by eapply lookup_lt_Some).
  assert (Hs1 : exists r : option error,
    Close s = Ok r
      (with_client (set_ws None (set_connected false (client s)))
         (with_world {| conns := <[w := close_conn StatusNormalClosure cn]>
                                   (conns (world s));
                        network := network (world s) |} s))).
  { unfold Close. run_M. rewrite Hc. simpl. unfold ws_Close. simpl.
    rewrite Hws, Hcn. simpl.
    destruct (closeResult cn) as [e |]; simpl; [| by eexists].
    destruct (CloseStatus e =? -1)%Z; simpl; by eexists. }
  destruct Hs1 as [r Hs1]. subst s1. rewrite Hs1. simpl.
  assert (Hread : ws_Read w
    (with_client (set_ws None (set_connected false (client s)))
       (with_world {| conns := <[w := close_conn StatusNormalClosure cn]>
                                 (conns (world s));
                      network := network (world s) |} s))
    = Some (inl (closedError StatusNormalClosure),
            with_client (set_ws None (set_connected false (client s)))
              (with_world {| conns := <[w := close_conn StatusNormalClosure cn]>
                                        (conns (world s));
                             network := network (world s) |} s))).
  { unfold ws_Read. simpl. rewrite list_lookup_insert_eq by done. simpl.
    by rewrite Hopen. }
  split; [exact Hread |].
  unfold thread_step, loop_step. simpl. rewrite Hrun, Hloop, Hread.
  unfold on_read_error. simpl. by rewrite Hrec.
Qed.

Lemma X9_witness :
  let s := reading_state ["session_keepalive"] in
  panicked s = false /\ loop s = LReading 0 /\ ws (client s) = Some 0 /\
  connected (client s) = true /\ reconnecting (client s) = false /\
  conns (world s) !! 0 = Some (open_conn ["session_keepalive"]) /\
  closed (open_conn ["session_keepalive"]) = None /\
  thread_step TLoop (state_of (Close s))
    = Some (with_loop (LReturn None) (state_of (Close s))).
Proof.
  intros s.
  repeat (split; [reflexivity |]).
  exact (proj2 (X9_close_ends_loop s 0 (open_conn ["session_keepalive"])
                  eq_refl eq_refl eq_refl eq_refl eq_refl eq_refl eq_refl)).
Defined.

(** ** The reconnect handoff *)

(** X10: a [session_reconnect] frame invokes the reconnect handler, rewrites
    the address to the message's reconnect URL and dials it.  When the dial
    fails the loop body reports "could not dial to reconnect" (the dial
    error itself is dropped), the address stays rewritten and no goroutine
    is started; when it succeeds the new transport is added and one
    goroutine is started on it.  Either way the active transport and the
    other lifecycle fields are untouched. *)
Theorem X10_reconnect_frame `{Json} `{Declarations} (data : bytes)
    (metadata : MessageMetadata) (gen : unit -> any) (m : ReconnectMessage)
    (sink : callback) (s : State) :
  parseBaseMessage data = (metadata, None) ->
  messageTypeMap !! MessageType metadata = Some gen ->
  json_Unmarshal data (gen tt) = inr (PtrReconnectMessage m) ->
  onError (client s) = Some sink ->
  let c' := set_Address (ReconnectUrl m) (client s) in
  let called := invocation (onReconnect (client s)) (ArgReconnect m) in
  match network (world s) (ReconnectUrl m) with
  | inl err =>
      dispatch data s =
        Ok tt
           (with_log
              (log s ++ called ++
               [Call sink
                  (ArgError (ErrorfW "could not handle reconnect: %w" []
                               (Errorf "could not dial to reconnect" [])))])
              (with_client c' s))
  | inr cn =>
      dispatch data s =
        Ok tt
           (with_handoffs (handoffs s ++ [HRead (length (conns (world s)))])
              (with_world {| conns := conns (world s) ++ [cn];
                             network := network (world s) |}
                 (with_log (log s ++ called) (with_client c' s))))
  end /\
  lifecycle c' = lifecycle (client s).
Proof.
  intros Hp Hl Hdec Hsink c' called. split; [| reflexivity].
  unfold dispatch. rewrite bind_run.
  rewrite (handleMessage_decoded data metadata gen _ s Hp Hl Hdec).
  cbn [invocation_of message_arg handler_of]. fold called.
  unfold reconnect. run_M. unfold dial. simpl.
  destruct (network (world s) (ReconnectUrl m)) as [err | cn]; simpl.
  - rewrite Hsink. unfold emit, with_log, with_client. simpl.
    by rewrite <- app_assoc.
  - reflexivity.
Qed.

Lemma X10_witness :
  let data := frame "session_reconnect:wss://nowhere" in
  let m := {| Reconnect_Metadata := sample_metadata data;
              ReconnectUrl := "wss://nowhere"; Reconnect_Session := [] |} in
  parseBaseMessage data = (sample_metadata data, None) /\
  messageTypeMap !! MessageType (sample_metadata data)
    = Some (zeroPtrGen TReconnectMessage) /\
  json_Unmarshal data (zeroPtrGen TReconnectMessage tt) = inr (PtrReconnectMessage m) /\
  onError (client idle_state) = Some 1 /\
  dispatch data idle_state =
    Ok tt
       (with_log
          [Go 5 (ArgReconnect m);
           Call 1 (ArgError (ErrorfW "could not handle reconnect: %w" []
                               (Errorf "could not dial to reconnect" [])))]
          (with_client (set_Address "wss://nowhere" (client idle_state)) idle_state)).
Proof.
  intros data m.
  assert (H1 : parseBaseMessage data = (sample_metadata data, None)) by reflexivity.
  assert (H2 : messageTypeMap !! MessageType (sample_metadata data)
               = Some (zeroPtrGen TReconnectMessage)) by reflexivity.
  assert (H3 : json_Unmarshal data (zeroPtrGen TReconnectMessage tt)
               = inr (PtrReconnectMessage m)) by reflexivity.
  assert (H4 : onError (client idle_state) = Some 1) by reflexivity.
  repeat (split; [assumption |]).
  exact (proj1 (X10_reconnect_frame data (sample_metadata data)
                  (zeroPtrGen TReconnectMessage) m 1 idle_state H1 H2 H3 H4)).
Defined.

(** X11: the [session_welcome] that the goroutine of [reconnect] reads on
    the new transport is consumed by the goroutine: it is taken from that
    transport, no handler is invoked for it (the Welcome handler included)
    and nothing is reported; the goroutine goes on to the swap. *)
Theorem X11_handoff_welcome_is_silent `{Json} `{Declarations} (i : nat)
    (new : ConnId) (data : bytes) (metadata : MessageMetadata) (s s1 : State) :
  panicked s = false ->
  handoffs s !! i = Some (HRead new) ->
  ws_Read new s = Some (inr data, s1) ->
  parseBaseMessage data = (metadata, None) ->
  MessageType metadata = "session_welcome" ->
  thread_step (THandoff i) s = Some (set_handoff i (HMark new) s1) /\
  log s1 = log s /\ client s1 = client s /\
  inbox_at s new = inr data :: inbox_at s1 new.
Proof.
  intros Hrun Hi Hread Hp Hty.
  destruct (ws_Read_frame _ _ _ _ Hread) as (Hc & Hlog & _).
  destruct (ws_Read_world _ _ _ _ Hread) as (_ & _ & _ & _ & _ & Hin).
  split; [| by repeat split].
  unfold thread_step, handoff_step. rewrite Hrun, Hi, Hread.
  unfold await_welcome. rewrite Hp. run_M.
  by rewrite decide_True.
Qed.

Lemma X11_witness :
  let s := handoff_state ["session_welcome"] in
  let data := frame "session_welcome" in
  panicked s = false /\ handoffs s !! 0 = Some (HRead 1) /\
  ws_Read 1 s = Some (inr data, handoff_state []) /\
  parseBaseMessage data = (sample_metadata data, None) /\
  MessageType (sample_metadata data) = "session_welcome" /\
  thread_step (THandoff 0) s = Some (set_handoff 0 (HMark 1) (handoff_state [])).
Proof.
  intros s data.
  repeat (split; [reflexivity |]).
  exact (proj1 (X11_handoff_welcome_is_silent 0 1 data (sample_metadata data) s
                  (handoff_state []) eq_refl eq_refl eq_refl eq_refl eq_refl)).
Defined.

Lemma run_step `{Json} `{Declarations} (t : Tid) (sched : list Tid) (s s' : State) :
  thread_step t s = Some s' -> run (t :: sched) s = run sched s'.
Proof. intros Hs. simpl. by rewrite Hs. Qed.

(** X12: a handoff the loop waits for.  The loop is inside [Read] on the
    open active transport [old]; the goroutine of [reconnect] reads a
    [session_welcome] on the open transport [new].  Then the goroutine sets
    the flag, closes [old] and installs [new]; the loop's [Read] fails with
    the normal closure, the loop clears the flag, takes the goroutine's
    signal and calls [Read] on [new].  No handler is invoked, the goroutine
    is done, and [old] is closed with the normal-closure status. *)
Theorem X12_handoff_completes `{Json} `{Declarations} (i : nat) (old new : ConnId)
    (cno cnn : Conn) (data : bytes) (rest : list ReadResult)
    (metadata : MessageMetadata) (s : State) :
  panicked s = false ->
  handoffs s !! i = Some (HRead new) ->
  loop s = LReading old ->
  ws (client s) = Some old ->
  new <> old ->
  conns (world s) !! old = Some cno -> closed cno = None ->
  conns (world s) !! new = Some cnn -> closed cnn = None ->
  inbox cnn = inr data :: rest ->
  parseBaseMessage data = (metadata, None) ->
  MessageType metadata = "session_welcome" ->
  exists s',
    run [THandoff i; THandoff i; THandoff i; TLoop; THandoff i; THandoff i; TLoop] s
      = Some s' /\
    loop s' = LReading new /\
    lifecycle (client s') = (Some new, connected (client s), ctx (client s), false) /\
    closed_at s' old = Some StatusNormalClosure /\
    closed_at s' new = None /\ inbox_at s' new = rest /\
    handoffs s' = <[i := HDone]> (handoffs s) /\
    log s' = log s /\ panicked s' = false /\
    same_handlers (client s) (client s') /\ Address (client s') = Address (client s).
Proof.
  intros Hrun Hi Hloop Hws Hne Hold Hoopen Hnew Hnopen Hin Hp Hty.
  assert (Hlti : i < length (handoffs s)) by (by eapply lookup_lt_Some).
  assert (Hlto : old < length (conns (world s))) by (by eapply lookup_lt_Some).
  assert (Hltn : new < length (conns (world s))) by (by eapply lookup_lt_Some).
  (* the goroutine reads the welcome *)
  set (sA := with_world {| conns := <[new := pop_inbox cnn]> (conns (world s));
                           network := network (world s) |} s).
  assert (Hread : ws_Read new s = Some (inr data, sA)).
  { unfold ws_Read. by rewrite Hnew, Hnopen, Hin. }
  assert (Hs1 : thread_step (THandoff i) s = Some (set_handoff i (HMark new) sA)).
  { unfold thread_step, handoff_step. rewrite Hrun, Hi, Hread.
    unfold await_welcome. rewrite Hp. run_M. by rewrite decide_True. }
  (* it sets the flag *)
  set (s1 := set_handoff i (HMark new) sA).
  set (s2 := set_handoff i (HClose new)
               (with_client (set_reconnecting true (client s1)) s1)).
  assert (Hs2 : thread_step (THandoff i) s1 = Some s2).
  { unfold thread_step, handoff_step. simpl.
    by rewrite Hrun, list_lookup_insert_eq. }
  (* it closes the active transport *)
  set (s3 := set_handoff i (HSwap new)
               (with_world
                  {| conns := <[old := close_conn StatusNormalClosure cno]>
                                (conns (world s2));
                     network := network (world s2) |} s2)).
  assert (Hold2 : conns (world s2) !! old = Some cno).
  { simpl. by rewrite list_lookup_insert_ne. }
  assert (Hs3 : thread_step (THandoff i) s2 = Some s3).
  { unfold thread_step, handoff_step. simpl.
    rewrite Hrun, list_lookup_insert_eq by (by rewrite length_insert).
    run_M. unfold ws_Close. simpl. rewrite Hws. simpl in Hold2. by rewrite Hold2. }
  (* the loop's Read fails with the normal closure *)
  set (s4 := with_loop LRecv (with_client (set_reconnecting false (client s3)) s3)).
  assert (Hs4 : thread_step TLoop s3 = Some s4).
  { unfold thread_step, loop_step, ws_Read. simpl. rewrite Hrun, Hloop.
    rewrite list_lookup_insert_eq by (by rewrite length_insert). simpl.
    by rewrite Hoopen. }
  (* the goroutine installs its transport and signals the loop *)
  set (s5 := set_handoff i (HSend new)
               (with_client (set_ws (Some new) (client s4)) s4)).
  assert (Hs5 : thread_step (THandoff i) s4 = Some s5).
  { unfold thread_step, handoff_step. simpl.
    by rewrite Hrun, list_lookup_insert_eq by (by rewrite !length_insert). }
  set (s6 := set_handoff i HDone (with_loop LRead s5)).
  assert (Hs6 : thread_step (THandoff i) s5 = Some s6).
  { unfold thread_step, handoff_step. simpl.
    by rewrite Hrun, list_lookup_insert_eq by (by rewrite !length_insert). }
  (* the loop reads the new transport *)
  set (s7 := with_loop (LReading new) s6).
  assert (Hs7 : thread_step TLoop s6 = Some s7).
  { unfold thread_step, loop_step. simpl. by rewrite Hrun. }
  exists s7. split.
  { rewrite (run_step _ _ _ _ Hs1), (run_step _ _ _ _ Hs2), (run_step _ _ _ _ Hs3),
      (run_step _ _ _ _ Hs4), (run_step _ _ _ _ Hs5), (run_step _ _ _ _ Hs6),
      (run_step _ _ _ _ Hs7). reflexivity. }
  unfold lifecycle, closed_at, inbox_at. simpl.
  rewrite list_lookup_insert_eq by (by rewrite length_insert).
  rewrite list_lookup_insert_ne by done.
  rewrite list_lookup_insert_eq by done. simpl. rewrite Hoopen, Hin.
  rewrite !list_insert_insert_eq.
  repeat split; auto.
Qed.

Lemma X12_witness :
  let s := handoff_state ["session_welcome"; "session_keepalive"] in
  let data := frame "session_welcome" in
  panicked s = false /\ handoffs s !! 0 = Some (HRead 1) /\
  loop s = LReading 0 /\ ws (client s) = Some 0 /\ 1 <> 0 /\
  conns (world s) !! 0 = Some (open_conn []) /\
  conns (world s) !! 1 = Some (open_conn ["session_welcome"; "session_keepalive"]) /\
  parseBaseMessage data = (sample_metadata data, None) /\
  MessageType (sample_metadata data) = "session_welcome" /\
  exists s',
    run [THandoff 0; THandoff 0; THandoff 0; TLoop; THandoff 0; THandoff 0; TLoop] s
      = Some s' /\
    loop s' = LReading 1 /\ ws (client s') = Some 1 /\
    closed_at s' 0 = Some StatusNormalClosure /\
    inbox_at s' 1 = [inr (frame "session_keepalive")].
Proof.
  intros s data.
  assert (Hne : 1 <> 0) by lia.
  assert (Hp : parseBaseMessage data = (sample_metadata data, None)) by reflexivity.
  assert (Hty : MessageType (sample_metadata data) = "session_welcome")
    by reflexivity.
  repeat (split; [reflexivity || assumption |]).
  destruct (X12_handoff_completes 0 0 1 (open_conn [])
              (open_conn ["session_welcome"; "session_keepalive"]) data
              [inr (frame "session_keepalive")] (sample_metadata data) s
              eq_refl eq_refl eq_refl eq_refl Hne eq_refl eq_refl eq_refl eq_refl
              eq_refl Hp Hty)
    as (s' & Hr & Hl & Hlife & Hcl & _ & Hin & _).
  exists s'. unfold lifecycle in Hlife. injection Hlife as Hws' _ _ _.
  split; [exact Hr |]. split; [exact Hl |]. split; [exact Hws' |].
  split; [exact Hcl | exact Hin].
Defined.



(** ** What the goroutines never do *)

Lemma closes_normally_same (s s' : State) :
  conns (world s') = conns (world s) -> closes_normally s s'.
Proof.
  intros Hc. unfold closes_normally, closed_at. rewrite Hc. split; [done |].
  intros w _. by left.
Qed.

Lemma closes_normally_app (s s' : State) (cn : Conn) :
  conns (world s') = conns (world s) ++ [cn] -> closes_normally s s'.
Proof.
  intros Hc. unfold closes_normally, closed_at. rewrite Hc. split.
  - rewrite length_app. lia.
  - intros w Hw. left. by rewrite lookup_app_l.
Qed.

Lemma closes_normally_grows (s s' : State) : grows s s' -> closes_normally s s'.
Proof.
  intros [_ [[Hc _] | (cn & Hc & _)]];
    [by apply closes_normally_same | by apply closes_normally_app with cn].
Qed.

Lemma closes_normally_trans (s1 s2 s3 : State) :
  closes_normally s1 s2 -> closes_normally s2 s3 -> closes_normally s1 s3.
Proof.
  intros [Hl1 H1] [Hl2 H2]. split; [lia |]. intros w Hw.
  destruct (H1 w Hw) as [He1 | [Hn1 Hs1]];
    destruct (H2 w ltac:(lia)) as [He2 | [Hn2 Hs2]].
  - left. congruence.
  - right. split; congruence.
  - right. split; congruence.
  - congruence.
Qed.

Lemma closes_normally_read (w : ConnId) (s s1 : State) (r : ReadResult) :
  ws_Read w s = Some (r, s1) -> closes_normally s s1.
Proof.
  intros Hread. destruct (ws_Read_world _ _ _ _ Hread) as (_ & Hlen & Hcl & _).
  split; [lia |]. intros w' _. left. apply Hcl.
Qed.

(** What a step of the loop keeps. *)
Lemma loop_step_keeps `{Json} `{Declarations} (s s' : State) :
  loop_step s = Some s' ->
  (forall e, loop s <> LReturn e) /\
  ((forall c, loop s <> LStart c) ->
   connected (client s') = connected (client s) /\ ctx (client s') = ctx (client s)) /\
  closes_normally s s'.
Proof.
  unfold loop_step.
  destruct (loop s) as [ctx0 | | w | |] eqn:Hloop; try discriminate.
  - intros [= <-]. split; [done |]. split; [intros Hc; by destruct (Hc ctx0) |].
    unfold ConnectWithContext_prologue. run_M.
    destruct (onWelcome (client s)); simpl; [| by apply closes_normally_same].
    unfold dial. simpl.
    destruct (network (world s) (Address (client s))) as [err | cn]; simpl;
      [by apply closes_normally_same | by apply closes_normally_app with cn].
  - destruct (ws (client s)); intros [= <-]; split; try done;
      (split; [done | by apply closes_normally_same]).
  - destruct (ws_Read w s) as [[[err | data] s1] |] eqn:Hread; [| | discriminate].
    + destruct (ws_Read_frame _ _ _ _ Hread) as (Hc & _).
      pose proof (closes_normally_read _ _ _ _ Hread) as Hcl.
      intros [= <-]. split; [done |]. unfold on_read_error.
      repeat case_match; simpl; rewrite ?Hc; (split; [done |]);
        (eapply closes_normally_trans; [exact Hcl |]);
        by apply closes_normally_same.
    + destruct (ws_Read_frame _ _ _ _ Hread) as (Hc & _).
      pose proof (closes_normally_read _ _ _ _ Hread) as Hcl.
      pose proof (dispatch_frame data s1) as (Hsame & _ & _ & Hg).
      apply closes_normally_grows in Hg.
      destruct (same_but_Address_fields _ _ Hsame) as (_ & Hconn & Hctx & _).
      intros [= <-]. split; [done |].
      destruct (dispatch data s1) as [[] s2 | s2]; simpl in *;
        (split; [intros _; split; congruence |]);
        (eapply closes_normally_trans; [exact Hcl |]);
        (eapply closes_normally_trans; [exact Hg |]);
        by apply closes_normally_same.
Qed.

(** What a step of a goroutine of [reconnect] keeps. *)
Lemma handoff_step_keeps `{Json} (i : nat) (s s' : State) :
  handoff_step i s = Some s' ->
  connected (client s') = connected (client s) /\ ctx (client s') = ctx (client s) /\
  Address (client s') = Address (client s) /\
  closes_normally s s' /\
  (loop s' = loop s \/
   (loop s = LRecv /\ exists new, handoffs s !! i = Some (HSend new))).
Proof.
  unfold handoff_step.
  destruct (handoffs s !! i) as [h |] eqn:Hi; [| discriminate].
  destruct h as [new | new | new | new | new |]; try discriminate.
  - destruct (ws_Read new s) as [[r s1] |] eqn:Hread; [| discriminate].
    destruct (ws_Read_frame _ _ _ _ Hread) as (Hc & _ & Hl & _).
    pose proof (closes_normally_read _ _ _ _ Hread) as Hcl.
    pose proof (await_welcome_only_logs r s1) as Hlog.
    intros [= <-].
    destruct (await_welcome r s1) as [ok s2 | s2]; simpl in Hlog; rewrite Hlog;
      simpl; rewrite Hc, Hl; repeat split; auto;
      (eapply closes_normally_trans; [exact Hcl |]); by apply closes_normally_same.
  - intros [= <-]. simpl. repeat split; auto; by apply closes_normally_same.
  - run_M. destruct (ws (client s)) as [w |] eqn:Hws.
    + unfold ws_Close.
      destruct (conns (world s) !! w) as [cn |] eqn:Hcn; simpl.
      * intros [= <-]. simpl. repeat split; auto.
        { simpl. by rewrite length_insert. }
        intros w' Hw'. unfold closed_at. simpl.
        destruct (decide (w' = w)) as [-> |].
        -- rewrite list_lookup_insert_eq by done. rewrite Hcn. simpl.
           destruct (closed cn); auto.
        -- left. by rewrite list_lookup_insert_ne.
      * intros [= <-]. simpl. repeat split; auto; by apply closes_normally_same.
    + simpl. intros [= <-]. simpl. repeat split; auto; by apply closes_normally_same.
  - intros [= <-]. simpl. repeat split; auto; by apply closes_normally_same.
  - destruct (loop s) eqn:Hloop; try discriminate. intros [= <-]. simpl.
    repeat split; eauto; by apply closes_normally_same.
Qed.

Lemma thread_step_keeps `{Json} `{Declarations} (t : Tid) (s s' : State) :
  thread_step t s = Some s' ->
  ((forall c, loop s <> LStart c) ->
   connected (client s') = connected (client s) /\ ctx (client s') = ctx (client s)) /\
  closes_normally s s' /\
  (forall e, loop s = LReturn e -> loop s' = LReturn e).
Proof.
  unfold thread_step. destruct (panicked s); [discriminate |].
  destruct t as [| i]; intros Hstep.
  - destruct (loop_step_keeps s s' Hstep) as (Hret & Hconn & Hcl).
    split; [exact Hconn |]. split; [exact Hcl |].
    intros e He. by destruct (Hret e).
  - destruct (handoff_step_keeps i s s' Hstep) as (Hconn & Hctx & _ & Hcl & Hloop).
    split; [by intros _ |]. split; [exact Hcl |]. intros e He.
    destruct Hloop as [-> | [Hrecv _]]; congruence.
Qed.

(** X14: once [ConnectWithContext] has returned, no goroutine of
    [reconnect] brings the loop back, and a goroutine that is waiting to
    send its handoff signal waits for ever. *)
Theorem X14_return_is_final `{Json} `{Declarations} (e : option error)
    (s s' : State) :
  loop s = LReturn e ->
  rtc step s s' ->
  loop s' = LReturn e /\
  forall i new, handoffs s !! i = Some (HSend new) ->
                handoffs s' !! i = Some (HSend new).
Proof.
  intros Hret Hrtc.
  apply (rtc_invariant step
           (fun s' => loop s' = LReturn e /\
                      forall i new, handoffs s !! i = Some (HSend new) ->
                                    handoffs s' !! i = Some (HSend new)) s s');
    [| by split | exact Hrtc].
  clear s' Hrtc. intros s1 s2 [Hloop Hsend] [t Hstep].
  destruct (thread_step_keeps t s1 s2 Hstep) as (_ & _ & Hkeep).
  split; [by apply Hkeep |]. intros i new Hi. specialize (Hsend i new Hi).
  destruct (decide (t = THandoff i)) as [-> | Hne].
  - exfalso. revert Hstep. unfold thread_step, handoff_step.
    destruct (panicked s1); [discriminate |]. by rewrite Hsend, Hloop.
  - apply thread_step_facts in Hstep. destruct Hstep. by apply F_others0.
Qed.

Lemma X14_witness :
  let s := with_loop (LReturn None) unawaited_handoff in
  loop s = LReturn None /\ handoffs s !! 0 = Some (HSend 1) /\
  forall s', rtc step s s' ->
    loop s' = LReturn None /\ handoffs s' !! 0 = Some (HSend 1).
Proof.
  intros s.
  assert (H1 : loop s = LReturn None) by reflexivity.
  assert (H2 : handoffs s !! 0 = Some (HSend 1)) by (vm_compute; reflexivity).
  split; [exact H1 |]. split; [exact H2 |]. intros s' Hrtc.
  destruct (X14_return_is_final None s s' H1 Hrtc) as [Hl Hs].
  split; [exact Hl | exact (Hs 0 1 H2)].
Defined.

(** X15: after the dial of [ConnectWithContext], neither the loop nor a
    goroutine of [reconnect] changes [connected] or the stored context:
    the client still counts as connected after the loop has returned, until
    [Close] is called. *)
Theorem X15_only_close_disconnects `{Json} `{Declarations} (s s' : State) :
  (forall c, loop s <> LStart c) ->
  rtc step s s' ->
  connected (client s') = connected (client s) /\ ctx (client s') = ctx (client s).
Proof.
  intros Hstart Hrtc.
  apply (rtc_invariant step
           (fun s' => (forall c, loop s' <> LStart c) /\
                      connected (client s') = connected (client s) /\
                      ctx (client s') = ctx (client s)) s s'); [| done | exact Hrtc].
  clear s' Hrtc. intros s1 s2 (Hst & Hconn & Hctx) [t Hstep].
  destruct (thread_step_keeps t s1 s2 Hstep) as (Hkeep & _ & _).
  destruct (Hkeep Hst) as [Hc1 Hc2].
  apply thread_step_facts in Hstep. destruct Hstep.
  split; [| split; congruence].
  intros c Hc. destruct (F_started0 c Hc) as [Hc0 _]. by destruct (Hst c).
Qed.

Lemma X15_witness :
  (forall c, loop before_swap <> LStart c) /\
  connected (client before_swap) = true /\
  forall s', rtc step before_swap s' -> connected (client s') = true.
Proof.
  assert (H1 : forall c, loop before_swap <> LStart c)
    by (intros c; vm_compute; discriminate).
  assert (H2 : connected (client before_swap) = true) by (vm_compute; reflexivity).
  split; [exact H1 |]. split; [exact H2 |]. intros s' Hrtc.
  destruct (X15_only_close_disconnects before_swap s' H1 Hrtc) as [Hc _].
  by rewrite Hc.
Defined.

(** X16: along every run the transports that exist stay, a closed one stays
    closed with its status, and an open one is closed by the program with
    the normal-closure status only. *)
Theorem X16_closes_with_normal_status `{Json} `{Declarations} (s s' : State)
    (w : ConnId) :
  rtc step s s' ->
  w < length (conns (world s)) ->
  w < length (conns (world s')) /\
  (closed_at s' w = closed_at s w \/
   (closed_at s w = None /\ closed_at s' w = Some StatusNormalClosure)).
Proof.
  intros Hrtc Hw.
  assert (Hcl : closes_normally s s').
  { apply (rtc_invariant step (closes_normally s) s s'); [| | exact Hrtc].
    - intros s1 s2 Hs1 [t Hstep].
      destruct (thread_step_keeps t s1 s2 Hstep) as (_ & Hstep_cl & _).
      by apply closes_normally_trans with s1.
    - by apply closes_normally_same. }
  destruct Hcl as [Hlen Hcl]. split; [lia | by apply Hcl].
Qed.

Lemma run_rtc `{Json} `{Declarations} (sched : list Tid) (s s' : State) :
  run sched s = Some s' -> rtc step s s'.
Proof.
  revert s. induction sched as [| t sched IH]; intros s; simpl.
  - intros [= ->]. constructor.
  - destruct (thread_step t s) as [s1 |] eqn:Hstep; [| done]. intros Hrun.
    apply rtc_l with s1; [by exists t | by apply IH].
Qed.

Lemma X16_witness :
  run (tail one_handoff ++ [THandoff 0]) after_dial = Some after_swap /\
  0 < length (conns (world after_dial)) /\
  closed_at after_dial 0 = None /\
  closed_at after_swap 0 = Some StatusNormalClosure.
Proof.
  assert (H1 : run (tail one_handoff ++ [THandoff 0]) after_dial = Some after_swap)
    by (vm_compute; reflexivity).
  assert (H2 : 0 < length (conns (world after_dial))) by (vm_compute; lia).
  assert (H3 : closed_at after_dial 0 = None) by (vm_compute; reflexivity).
  split; [exact H1 |]. split; [exact H2 |]. split; [exact H3 |].
  destruct (X16_closes_with_normal_status after_dial after_swap 0
              (run_rtc _ _ _ H1) H2) as [_ [Heq | [_ Hcl]]]; [| exact Hcl].
  rewrite H3 in Heq. vm_compute in Heq. discriminate.
Defined.

(** X17: when the [Read] on the newly dialed transport fails, the goroutine
    of [reconnect] does not stop at the first report: it reports the read
    error, goes on to decode the absent frame and reports that decode
    error, then reports that the message type (empty) is not
    [session_welcome], and only then gives up, without a swap. *)
Theorem X17_handoff_read_failure `{Json} `{Declarations} (i : nat) (new : ConnId)
    (err perr : liberror) (sink : callback) (s s1 : State) :
  panicked s = false ->
  handoffs s !! i = Some (HRead new) ->
  ws_Read new s = Some (inl err, s1) ->
  unmarshal_BaseMessage [] = inl perr ->
  onError (client s) = Some sink ->
  thread_step (THandoff i) s =
    Some (set_handoff i HDone
            (with_log
               (log s1 ++
                [Call sink
                   (ArgError
                      (ErrorfW
                         "reconnect failed: could not read reconnect websocket for welcome: %w"
                         [] (LibError err)));
                 Call sink
                   (ArgError
                      (ErrorfW "reconnect failed: could parse base message: %w" []
                         (ErrorfW
                            "could not unmarshal basemessage to get message type: %w"
                            [] (LibError perr))));
                 Call sink
                   (ArgError
                      (Errorf
                         "reconnect failed: did not get a session_welcome message first: got message %s"
                         [Str ""]))]) s1)).
Proof.
  intros Hrun Hi Hread Hperr Hsink.
  destruct (ws_Read_frame _ _ _ _ Hread) as (Hc & _).
  unfold thread_step, handoff_step. rewrite Hrun, Hi, Hread.
  unfold await_welcome, parseBaseMessage. rewrite Hperr.
  do 3 (run_M; rewrite ?Hc, ?Hsink; simpl).
  unfold set_handoff, with_handoffs, with_log. simpl.
  by rewrite <- !app_assoc.
Qed.

Lemma X17_witness :
  let s := failing_handoff_state in
  panicked s = false /\ handoffs s !! 0 = Some (HRead 1) /\
  (exists s1, ws_Read 1 s = Some (inl dialError, s1)) /\
  unmarshal_BaseMessage [] = inl syntaxError /\
  onError (client s) = Some 1 /\
  exists s', thread_step (THandoff 0) s = Some s' /\
             handoffs s' = [HDone] /\ ws (client s') = Some 0 /\
             length (log s') = 3.
Proof.
  intros s.
  assert (H1 : panicked s = false) by reflexivity.
  assert (H2 : handoffs s !! 0 = Some (HRead 1)) by reflexivity.
  assert (H3 : ws_Read 1 s
               = Some (inl dialError,
                       with_world
                         {| conns := <[1 := pop_inbox
                                              {| inbox := [inl dialError];
                                                 closed := None;
                                                 closeResult := None |}]>
                                       (conns (world s));
                            network := network (world s) |} s)) by reflexivity.
  assert (H4 : unmarshal_BaseMessage [] = inl syntaxError) by reflexivity.
  assert (H5 : onError (client s) = Some 1) by reflexivity.
  split; [exact H1 |]. split; [exact H2 |]. split; [eexists; exact H3 |].
  split; [exact H4 |]. split; [exact H5 |].
  eexists. split;
    [exact (X17_handoff_read_failure 0 1 dialError syntaxError 1 s _ H1 H2 H3 H4 H5) |].
  repeat split.
Defined.

(** X18: handling a frame never touches the lifecycle of the client (the
    active transport, [connected], the context, [reconnecting]), its
    handlers, the loop's position, a transport that exists or a goroutine
    that runs; all it may add is one transport and the goroutine that reads
    it. *)
Theorem X18_dispatch_keeps_lifecycle `{Json} `{Declarations} (data : bytes)
    (s : State) :
  let s' := state_of (dispatch data s) in
  lifecycle (client s') = lifecycle (client s) /\
  same_handlers (client s) (client s') /\
  loop s' = loop s /\
  (forall w cn, conns (world s) !! w = Some cn -> conns (world s') !! w = Some cn) /\
  (forall i h, handoffs s !! i = Some h -> handoffs s' !! i = Some h) /\
  length (conns (world s')) <= S (length (conns (world s))) /\
  length (handoffs s') <= S (length (handoffs s)).
Proof.
  intros s'. destruct (dispatch_frame data s) as (Hsame & Hloop & _ & Hg).
  fold s' in Hsame, Hloop, Hg.
  destruct (same_but_Address_fields _ _ Hsame) as (Hws & Hconn & Hctx & Hrec).
  split; [unfold lifecycle; congruence |].
  split; [by apply same_but_Address_handlers |]. split; [exact Hloop |].
  destruct Hg as [_ [[Hc Hh] | (cn & Hc & Hh)]]; rewrite Hc, Hh.
  - repeat split; auto.
  - repeat split.
    + intros w cn0 Hw. by apply lookup_app_l_Some.
    + intros i h Hi. by apply lookup_app_l_Some.
    + rewrite length_app. simpl. lia.
    + rewrite length_app. simpl. lia.
Qed.

(** X19: a notification frame whose event has a typed target and decodes
    starts its handlers in a fixed order: the notification handler, then
    the raw hook (called in place), then the handler of the event's type;
    nothing is reported and nothing else changes. *)
Theorem X19_notification_order `{Json} `{Declarations} (data ev : bytes)
    (metadata : MessageMetadata) (gen egen : unit -> any) (m : NotificationMessage)
    (entry : subscriptionMetadata) (k : EventKind) (event : Fields) (s : State) :
  parseBaseMessage data = (metadata, None) ->
  messageTypeMap !! MessageType metadata = Some gen ->
  json_Unmarshal data (gen tt) = inr (PtrNotificationMessage m) ->
  Event_MarshalJSON (Payload_Event m) = inr ev ->
  subMetadata !! Subscription_Type (Payload_Subscription m) = Some entry ->
  EventGen entry = Some egen ->
  json_Unmarshal ev (egen tt) = inr (PtrEvent k event) ->
  dispatch data s =
    Ok tt
       (with_log
          (log s ++
           invocation (onNotification (client s)) (ArgNotification m) ++
           raw_hook_calls (client s) m ev ++
           invocation (onEvent (client s) k) (ArgEvent k event)) s).
Proof.
  intros Hp Hl Hdec Hm Hsub Hgen Hev. unfold dispatch. rewrite bind_run.
  rewrite (handleMessage_decoded data metadata gen _ s Hp Hl Hdec).
  cbn [invocation_of message_arg handler_of].
  unfold handleNotification, raw_hook_calls. rewrite Hm, Hsub, Hgen, Hev. run_M.
  destruct (onRawEvent (client s)); simpl; destruct (onEvent (client s) k); simpl;
    unfold with_log; simpl; by rewrite <- ?app_assoc, ?app_nil_r.
Qed.

Lemma X19_witness :
  let data := frame "notification:channel.update" in
  let m := sample_notification "channel.update" in
  let egen := zeroPtrGen (TEvent EventChannelUpdate) in
  parseBaseMessage data = (sample_metadata data, None) /\
  messageTypeMap !! MessageType (sample_metadata data)
    = Some (zeroPtrGen TNotificationMessage) /\
  json_Unmarshal data (zeroPtrGen TNotificationMessage tt)
    = inr (PtrNotificationMessage m) /\
  Event_MarshalJSON (Payload_Event m) = inr (frame "{}") /\
  subMetadata !! Subscription_Type (Payload_Subscription m)
    = Some {| EventGen := Some egen |} /\
  json_Unmarshal (frame "{}") (egen tt)
    = inr (PtrEvent EventChannelUpdate [("event", "{}")]) /\
  dispatch data idle_state =
    Ok tt
       (with_log
          [Go 4 (ArgNotification m);
           Call 7 (ArgRawEvent "{}" (Notification_Metadata m) (Payload_Subscription m));
           Go 8 (ArgEvent EventChannelUpdate [("event", "{}")])]
          idle_state).
Proof.
  intros data m egen.
  assert (H1 : parseBaseMessage data = (sample_metadata data, None)) by reflexivity.
  assert (H2 : messageTypeMap !! MessageType (sample_metadata data)
               = Some (zeroPtrGen TNotificationMessage)) by reflexivity.
  assert (H3 : json_Unmarshal data (zeroPtrGen TNotificationMessage tt)
               = inr (PtrNotificationMessage m)) by reflexivity.
  assert (H4 : Event_MarshalJSON (Payload_Event m) = inr (frame "{}")) by reflexivity.
  assert (H5 : subMetadata !! Subscription_Type (Payload_Subscription m)
               = Some {| EventGen := Some egen |}) by (vm_compute; reflexivity).
  assert (H6 : json_Unmarshal (frame "{}") (egen tt)
               = inr (PtrEvent EventChannelUpdate [("event", "{}")])) by reflexivity.
  repeat (split; [assumption |]).
  exact (X19_notification_order data (frame "{}") (sample_metadata data)
           (zeroPtrGen TNotificationMessage) egen m {| EventGen := Some egen |}
           EventChannelUpdate [("event", "{}")] idle_state H1 H2 H3 H4 H5 eq_refl H6).
Defined.
